(** * OleMacroDetector: a shallow embedding of [OleMacroDetector.py]

    The script decides whether one office document carries macros by
    running five detection strategies in an [or]-chain.  Every strategy
    is a thin layer of control flow (try/except, short-circuit evaluation,
    string matching) around calls into collaborators that live outside
    the repository: two command line tools started with [subprocess.run],
    the [olefile] library, the [VBA_Parser] class of [oletools] and the
    [zipfile] module.

    The embedding keeps that shape.  The collaborators are the fields of
    a record [Env]: each call either returns a value or raises a Python
    exception.  The code of the script itself is written in a small
    monad that records the sequence of external calls and carries the
    exception, so that try/except, [with] and early [return] are modelled
    the way Python runs them. *)

From Stdlib Require Import String Ascii List Bool Arith Lia.
From Stdlib Require Import Strings.Byte.
From Stdlib Require Import Sorting.Sorted.
Import ListNotations.
Open Scope string_scope.
Open Scope list_scope.
Open Scope nat_scope.

(* ===================================================================== *)
(** * Part I: definitions *)
(* ===================================================================== *)

(** ** Python [str] operations used by the script

    A [str] is modelled as a Rocq [string] whose characters are the code
    points 0..255.  On that range the functions below agree with
    CPython: [lower] is character-wise, the white space characters are
    those for which [str.isspace] holds and the line boundaries are those
    recognised by [str.splitlines]. *)

Module PyStr.

Definition in_range (lo hi n : nat) : bool := (lo <=? n) && (n <=? hi).

(** [c.lower()] for one character: A-Z and the Latin-1 capitals
    (U+00C0..U+00DE without the multiplication sign U+00D7). *)
Definition lower_char (c : ascii) : ascii :=
  let n := nat_of_ascii c in
  if in_range 65 90 n || (in_range 192 222 n && negb (n =? 215))
  then ascii_of_nat (n + 32)
  else c.

(** [s.lower()] *)
Fixpoint lower (s : string) : string :=
  match s with
  | EmptyString => EmptyString
  | String c s' => String (lower_char c) (lower s')
  end.

(** [c.isspace()]: TAB, LF, VT, FF, CR, FS, GS, RS, US, SPACE, NEL, NBSP. *)
Definition isspace (c : ascii) : bool :=
  let n := nat_of_ascii c in
  in_range 9 13 n || in_range 28 32 n || (n =? 133) || (n =? 160).

(** The line boundaries of [str.splitlines]:
    LF, VT, FF, CR, FS, GS, RS and NEL. *)
Definition is_linebreak (c : ascii) : bool :=
  let n := nat_of_ascii c in
  in_range 10 13 n || in_range 28 30 n || (n =? 133).

Definition is_CR (c : ascii) : bool := nat_of_ascii c =? 13.
Definition is_LF (c : ascii) : bool := nat_of_ascii c =? 10.

(** [s.lstrip()] *)
Fixpoint lstrip (s : string) : string :=
  match s with
  | EmptyString => EmptyString
  | String c s' => if isspace c then lstrip s' else s
  end.

Definition snoc (s : string) (c : ascii) : string :=
  String.append s (String c EmptyString).

Definition is_empty (s : string) : bool :=
  match s with EmptyString => true | _ => false end.

(** [s.split()] without arguments: the maximal runs of characters that
    are not white space.  [cur] is the token being read. *)
Fixpoint split_from (cur : string) (s : string) : list string :=
  match s with
  | EmptyString => if is_empty cur then [] else [cur]
  | String c s' =>
      if isspace c
      then (if is_empty cur then split_from EmptyString s'
            else cur :: split_from EmptyString s')
      else split_from (snoc cur c) s'
  end.

Definition split (s : string) : list string := split_from EmptyString s.

(** [s.splitlines()]: CR LF counts as one boundary and a final boundary
    does not open an empty last line.  [cur] is the line being read. *)
Fixpoint splitlines_from (cur : string) (s : string) : list string :=
  match s with
  | EmptyString => if is_empty cur then [] else [cur]
  | String c s' =>
      if is_linebreak c
      then cur ::
           match s' with
           | String d s'' =>
               if is_CR c && is_LF d
               then splitlines_from EmptyString s''
               else splitlines_from EmptyString s'
           | EmptyString => splitlines_from EmptyString s'
           end
      else splitlines_from (snoc cur c) s'
  end.

Definition splitlines (s : string) : list string :=
  splitlines_from EmptyString s.

(** [t.startswith(s)] *)
Fixpoint startswith (s t : string) : bool :=
  match s with
  | EmptyString => true
  | String a s' =>
      match t with
      | EmptyString => false
      | String b t' => Ascii.eqb a b && startswith s' t'
      end
  end.

(** [needle in hay] on strings: substring search. *)
Fixpoint contains (needle hay : string) : bool :=
  startswith needle hay ||
  match hay with
  | EmptyString => false
  | String _ hay' => contains needle hay'
  end.

End PyStr.

(** ** Python [bytes] *)

Definition bytes := list byte.

Fixpoint bytes_eqb (a b : bytes) : bool :=
  match a, b with
  | [], [] => true
  | x :: a', y :: b' => Byte.eqb x y && bytes_eqb a' b'
  | _, _ => false
  end.

(** ** Exceptions

    The script has two kinds of handler.  A bare [except:] catches every
    [BaseException]; [except Exception] lets [KeyboardInterrupt],
    [SystemExit] and [GeneratorExit] through. *)

Inductive exn : Type :=
| FileNotFoundError
| PermissionError
| OSError
| BadZipFile
| ValueError
| IndexError
| RuntimeError
| UnicodeDecodeError
| OtherException (name : string)
| KeyboardInterrupt
| SystemExit
| GeneratorExit.

(** [isinstance(e, Exception)] *)
Definition is_Exception (e : exn) : bool :=
  match e with
  | KeyboardInterrupt | SystemExit | GeneratorExit => false
  | _ => true
  end.

(** The outcome of a call: a value or a raised exception. *)
Inductive res (A : Type) : Type :=
| Ok (a : A)
| Raise (e : exn).
Arguments Ok {A} a.
Arguments Raise {A} e.

(** ** The collaborators *)

(** [subprocess.CompletedProcess] as returned by
    [subprocess.run(..., stdout=PIPE, stderr=PIPE, text=True)]. *)
Record CompletedProcess : Type := {
  returncode : nat;
  stdout : string;
  stderr : string
}.

(** An open [olefile.OleFileIO]. *)
Record OleFileIO : Type := {
  ole_exists : string -> res bool
}.

(** A [VBA_Parser] instance. *)
Record VBA_Parser : Type := {
  detect_macros : res bool;
  close : res unit
}.

(** The file object returned by [ZipFile.open(name)];
    [zread None] is [read()], [zread (Some n)] is [read(n)]. *)
Record ZipExtFile : Type := {
  zread : option nat -> res bytes
}.

(** An open [zipfile.ZipFile]. *)
Record ZipFile : Type := {
  namelist : list string;
  zopen : string -> res ZipExtFile
}.

(** Everything outside the script: the installed tools and libraries and
    the file system they look at.  The environment does not change while
    one scan runs, so a call made twice has the same outcome. *)
Record Env : Type := {
  subprocess_run : list string -> res CompletedProcess;
  olefile_MAGIC : bytes;
  olefile_isOleFile : string -> res bool;
  olefile_OleFileIO : string -> res OleFileIO;
  VBA_Parser_path : string -> res VBA_Parser;
  VBA_Parser_data : string -> bytes -> res VBA_Parser;
  zipfile_is_zipfile : string -> res bool;
  zipfile_ZipFile : string -> res ZipFile
}.

(** ** Observable events *)

(** Where a [VBA_Parser] got its input from. *)
Inductive parser_src : Type :=
| FromPath (path : string)
| FromData (filename : string).

Inductive log_msg : Type :=
| OleFileDetected (subfile : string)
| FailedToRead (subfile : string) (e : exn)
| ErrorOpeningZip (e : exn).

Inductive event : Type :=
| EvSubprocess (argv : list string)
| EvIsOleFile (path : string)
| EvOleFileIO (path : string)
| EvOleExists (path : string) (name : string)
| EvVBAParser (src : parser_src)
| EvDetectMacros (src : parser_src)
| EvParserClose (src : parser_src)
| EvIsZipfile (path : string)
| EvZipFile (path : string)
| EvZipClose (path : string)
| EvNamelist (path : string)
| EvZipOpen (subfile : string)
| EvZipRead (subfile : string) (n : option nat)
| EvLogDebug (msg : log_msg)
| EvPrint (line : string).

(** ** The monad of the script: a trace of events and an outcome *)

Definition M (A : Type) : Type := (list event * res A)%type.

Definition trace {A} (m : M A) : list event := fst m.
Definition result {A} (m : M A) : res A := snd m.

Definition ret {A} (a : A) : M A := ([], Ok a).

Definition bind {A B} (m : M A) (f : A -> M B) : M B :=
  match result m with
  | Ok a => (trace m ++ trace (f a), result (f a))
  | Raise e => (trace m, Raise e)
  end.

Declare Scope py_scope.
Delimit Scope py_scope with py.
Notation "x <- c1 ;; c2" := (bind c1 (fun x => c2))
  (at level 100, c1 at next level, right associativity) : py_scope.
Notation "c1 ;; c2" := (bind c1 (fun _ => c2))
  (at level 100, right associativity) : py_scope.
Open Scope py_scope.

(** A call into a collaborator: one event, then its outcome. *)
Definition call {A} (ev : event) (o : res A) : M A := ([ev], o).

(** An effect that cannot fail ([logging.debug], [print]). *)
Definition emit (ev : event) : M unit := ([ev], Ok tt).

(** A pure computation that may raise. *)
Definition lift {A} (o : res A) : M A := ([], o).

(** [try: m  except: h] *)
Definition try_except {A} (m : M A) (h : exn -> M A) : M A :=
  match result m with
  | Ok a => m
  | Raise e => (trace m ++ trace (h e), result (h e))
  end.

(** [try: m  except Exception as e: h] *)
Definition try_except_Exception {A} (m : M A) (h : exn -> M A) : M A :=
  match result m with
  | Ok a => m
  | Raise e =>
      if is_Exception e
      then (trace m ++ trace (h e), result (h e))
      else m
  end.

(** [try: m  finally: fin], for a [fin] that does not raise. *)
Definition finally {A} (m : M A) (fin : M unit) : M A :=
  (trace m ++ trace fin, result m).

(** [a or b] on booleans: [b] is evaluated only when [a] is false. *)
Definition py_or (a b : M bool) : M bool :=
  x <- a ;; if x then ret x else b.

(** ** The five strategies and [main], as in [OleMacroDetector.py] *)

(** [line.lstrip().split()[1]]: indexing raises [IndexError] out of range. *)
Definition getitem {A} (l : list A) (i : nat) : res A :=
  match nth_error l i with
  | Some x => Ok x
  | None => Raise IndexError
  end.

Definition keyword_hit (output : string) : bool :=
  PyStr.contains "macros" output
  || PyStr.contains "autoexec" output
  || PyStr.contains "vba" output.

(** [run_olevba_triage(path)] *)
Definition run_olevba_triage (env : Env) (path : string) : M bool :=
  try_except
    (result_ <- call (EvSubprocess ["olevba"; "-t"; path])
                     (subprocess_run env ["olevba"; "-t"; path]) ;;
     let output := PyStr.lower (stdout result_) in
     ret (keyword_hit output))
    (fun _ => ret false).

(** The generator expression handed to [any] in [run_oledump_check]:
    [any] stops at the first true element, an element that raises
    makes [any] raise. *)
Fixpoint any_marker (lines : list string) : res bool :=
  match lines with
  | [] => Ok false
  | line :: rest =>
      if 1 <? length (PyStr.split (PyStr.lstrip line))
      then match getitem (PyStr.split (PyStr.lstrip line)) 1 with
           | Ok tok =>
               if String.eqb (PyStr.lower tok) "m"
               then Ok true
               else any_marker rest
           | Raise e => Raise e
           end
      else any_marker rest
  end.

(** [run_oledump_check(path)] *)
Definition run_oledump_check (env : Env) (path : string) : M bool :=
  try_except_Exception
    (result_ <- call (EvSubprocess ["oledump.py"; path])
                     (subprocess_run env ["oledump.py"; path]) ;;
     lift (any_marker (PyStr.splitlines (stdout result_))))
    (fun _ => ret false).

(** [check_excel97_macros(path)].  The [try] block either returns a
    value ([Some]) or falls through to the final [return False]. *)
Definition check_excel97_macros (env : Env) (path : string) : M bool :=
  returned <-
    try_except
      (is_ole <- call (EvIsOleFile path) (olefile_isOleFile env path) ;;
       if (is_ole : bool) then
         ole <- call (EvOleFileIO path) (olefile_OleFileIO env path) ;;
         wb <- call (EvOleExists path "workbook") (ole_exists ole "workbook") ;;
         if (wb : bool) then
           vba <- call (EvOleExists path "_VBA_PROJECT_CUR")
                       (ole_exists ole "_VBA_PROJECT_CUR") ;;
           ret (Some vba)
         else ret (Some wb)
       else ret None)
      (fun _ => ret None) ;;
  match returned with
  | Some v => ret v
  | None => ret false
  end.

(** [run_vba_parser(path)] *)
Definition run_vba_parser (env : Env) (path : string) : M bool :=
  try_except
    (vbaparser <- call (EvVBAParser (FromPath path)) (VBA_Parser_path env path) ;;
     has_macros <- call (EvDetectMacros (FromPath path)) (detect_macros vbaparser) ;;
     call (EvParserClose (FromPath path)) (close vbaparser) ;;
     ret has_macros)
    (fun _ => ret false).

(** The body of the inner [try] of [scan_zip_for_macros] for one entry:
    [Some true] is the [return True], [None] means the loop goes on. *)
Definition scan_subfile (env : Env) (z : ZipFile) (subfile : string)
  : M (option bool) :=
  f <- call (EvZipOpen subfile) (zopen z subfile) ;;
  magic <- call (EvZipRead subfile (Some (length (olefile_MAGIC env))))
                (zread f (Some (length (olefile_MAGIC env)))) ;;
  if bytes_eqb magic (olefile_MAGIC env) then
    emit (EvLogDebug (OleFileDetected subfile)) ;;
    f' <- call (EvZipOpen subfile) (zopen z subfile) ;;
    ole_data <- call (EvZipRead subfile None) (zread f' None) ;;
    vbaparser <- call (EvVBAParser (FromData subfile))
                      (VBA_Parser_data env subfile ole_data) ;;
    has_macros <- call (EvDetectMacros (FromData subfile))
                       (detect_macros vbaparser) ;;
    call (EvParserClose (FromData subfile)) (close vbaparser) ;;
    if (has_macros : bool) then ret (Some true) else ret None
  else ret None.

(** [for subfile in z.namelist(): try: ... except Exception as e: ... continue] *)
Fixpoint for_subfiles (env : Env) (z : ZipFile) (names : list string)
  : M (option bool) :=
  match names with
  | [] => ret None
  | subfile :: rest =>
      returned <-
        try_except_Exception
          (scan_subfile env z subfile)
          (fun e => emit (EvLogDebug (FailedToRead subfile e)) ;; ret None) ;;
      match returned with
      | Some v => ret (Some v)
      | None => for_subfiles env z rest
      end
  end.

(** [with zipfile.ZipFile(path) as z: body]: the archive is closed when
    the block is left, by [return], by an exception or at its end. *)
Definition with_ZipFile {A} (env : Env) (path : string)
  (body : ZipFile -> M A) : M A :=
  z <- call (EvZipFile path) (zipfile_ZipFile env path) ;;
  finally (body z) (emit (EvZipClose path)).

(** [scan_zip_for_macros(path)] *)
Definition scan_zip_for_macros (env : Env) (path : string) : M bool :=
  is_zip <- call (EvIsZipfile path) (zipfile_is_zipfile env path) ;;
  if negb is_zip then ret false
  else
    returned <-
      try_except_Exception
        (with_ZipFile env path (fun z =>
           names <- call (EvNamelist path) (Ok (namelist z)) ;;
           for_subfiles env z names))
        (fun e => emit (EvLogDebug (ErrorOpeningZip e)) ;; ret None) ;;
    match returned with
    | Some v => ret v
    | None => ret false
    end.

(** The [or]-chain of [main]. *)
Definition has_macros (env : Env) (path : string) : M bool :=
  py_or (run_olevba_triage env path)
    (py_or (run_oledump_check env path)
       (py_or (check_excel97_macros env path)
          (py_or (run_vba_parser env path)
             (scan_zip_for_macros env path)))).

(** [main()], after [argparse] has produced [path]. *)
Definition main (env : Env) (path : string) : M unit :=
  found <- has_macros env path ;;
  if (found : bool) then emit (EvPrint "MACROS_PRESENT")
  else emit (EvPrint "NO_MACROS").

(** ** The strategies as an enumeration, in the order of the [or]-chain *)

Inductive strategy : Type :=
| Triage          (* run_olevba_triage *)
| StreamMarker    (* run_oledump_check *)
| Structural      (* check_excel97_macros *)
| Parser          (* run_vba_parser *)
| Nested.         (* scan_zip_for_macros *)

Definition run_strategy (s : strategy) : Env -> string -> M bool :=
  match s with
  | Triage => run_olevba_triage
  | StreamMarker => run_oledump_check
  | Structural => check_excel97_macros
  | Parser => run_vba_parser
  | Nested => scan_zip_for_macros
  end.

Definition fixed_order : list strategy :=
  [Triage; StreamMarker; Structural; Parser; Nested].

Definition rank (s : strategy) : nat :=
  match s with
  | Triage => 0
  | StreamMarker => 1
  | Structural => 2
  | Parser => 3
  | Nested => 4
  end.

(** A strategy outcome is POSITIVE when the function returns [True]. *)
Definition positive (m : M bool) : Prop := result m = Ok true.

(** The function returns (it does not leave by an exception). *)
Definition returns {A} (m : M A) : Prop := exists a, result m = Ok a.

(** Which strategy an external call belongs to.  Calls are told apart by
    what they touch: the command started, the OLE library, a parser fed
    from the path, and the archive together with parsers fed from memory. *)
Definition owner (ev : event) : option strategy :=
  match ev with
  | EvSubprocess (cmd :: _) =>
      if String.eqb cmd "olevba" then Some Triage
      else if String.eqb cmd "oledump.py" then Some StreamMarker
      else None
  | EvSubprocess [] => None
  | EvIsOleFile _ | EvOleFileIO _ | EvOleExists _ _ => Some Structural
  | EvVBAParser (FromPath _) | EvDetectMacros (FromPath _)
  | EvParserClose (FromPath _) => Some Parser
  | EvVBAParser (FromData _) | EvDetectMacros (FromData _)
  | EvParserClose (FromData _) => Some Nested
  | EvIsZipfile _ | EvZipFile _ | EvZipClose _ | EvNamelist _
  | EvZipOpen _ | EvZipRead _ _ => Some Nested
  | EvLogDebug _ | EvPrint _ => None
  end.

(** The strategies behind the external calls of a trace, in trace order. *)
Definition executed (tr : list event) : list strategy :=
  flat_map (fun ev => match owner ev with Some s => [s] | None => [] end) tr.

(** An attempt to read the archive or one of its entries. *)
Definition is_archive_read (ev : event) : bool :=
  match ev with
  | EvZipFile _ | EvNamelist _ | EvZipOpen _ | EvZipRead _ _ => true
  | _ => false
  end.

(** The lines written to standard output. *)
Definition printed (tr : list event) : list string :=
  flat_map (fun ev => match ev with EvPrint l => [l] | _ => [] end) tr.

(** The debug messages logged. *)
Definition logged (tr : list event) : list log_msg :=
  flat_map (fun ev => match ev with EvLogDebug m => [m] | _ => [] end) tr.

(** ** The wording of the specification, for comparison with the code *)

(** Two strings are equal case-insensitively. *)
Definition ci_equal (a b : string) : Prop := PyStr.lower a = PyStr.lower b.

(** A case-insensitive substring search finds [k] in [s]. *)
Definition ci_occurs (k s : string) : Prop :=
  exists pre mid post,
    s = String.append pre (String.append mid post) /\ ci_equal mid k.

Definition keywords : list string := ["macros"; "autoexec"; "vba"].

(** The second white-space delimited token of [line] is the marker "m",
    in either case. *)
Definition marker_line (line : string) : Prop :=
  exists tok, nth_error (PyStr.split line) 1 = Some tok /\ ci_equal tok "m".

(** A line with fewer than two white-space delimited tokens. *)
Definition short_line (line : string) : Prop :=
  length (PyStr.split line) < 2.

(** The file at [path] can not be opened: the libraries that open it
    raise [FileNotFoundError], and [zipfile.is_zipfile], which swallows
    [OSError], answers [False]. *)
Definition path_missing (env : Env) (path : string) : Prop :=
  olefile_isOleFile env path = Raise FileNotFoundError
  /\ VBA_Parser_path env path = Raise FileNotFoundError
  /\ zipfile_is_zipfile env path = Ok false
  /\ zipfile_ZipFile env path = Raise FileNotFoundError.

(** Invocation-level errors are dealt with before any strategy runs:
    for a path that can not be opened no strategy is executed. *)
Definition checked_before_strategies (env : Env) (path : string) : Prop :=
  path_missing env path -> executed (trace (main env path)) = [].

(** Every raised exception of the environment is an [Exception]: no
    [KeyboardInterrupt], [SystemExit] or [GeneratorExit] arrives while a
    collaborator runs. *)
Definition raises_only_Exception {A} (o : res A) : Prop :=
  forall e, o = Raise e -> is_Exception e = true.

(** ** Resources *)

(** Handles the script can hold. *)
Inductive handle : Type :=
| HOle (path : string)
| HParser (src : parser_src)
| HArchive (path : string).

(** The handle an event releases. *)
Definition releases (ev : event) : option handle :=
  match ev with
  | EvParserClose src => Some (HParser src)
  | EvZipClose path => Some (HArchive path)
  | _ => None
  end.

Definition handle_eqb (a b : handle) : bool :=
  match a, b with
  | HOle p, HOle q => String.eqb p q
  | HParser (FromPath p), HParser (FromPath q) => String.eqb p q
  | HParser (FromData p), HParser (FromData q) => String.eqb p q
  | HArchive p, HArchive q => String.eqb p q
  | _, _ => false
  end.

(** [h] is released somewhere in the trace. *)
Definition released (h : handle) (tr : list event) : bool :=
  existsb (fun ev => match releases ev with
                     | Some h' => handle_eqb h h'
                     | None => false
                     end) tr.

(** ** Auxiliary notions used in the statements *)

Definition strategy_eqb (a b : strategy) : bool := rank a =? rank b.

(** [ev] is something strategy [s] does: one of its external calls, or,
    for the nested scanner, a debug message. *)
Definition belongs (s : strategy) (ev : event) : bool :=
  match owner ev with
  | Some s' => strategy_eqb s s'
  | None =>
      match ev with
      | EvLogDebug _ => strategy_eqb s Nested
      | _ => false
      end
  end.

(** An [or]-chain of any length; [has_macros] is the chain of the five
    strategies. *)
Fixpoint or_chain (ms : list (M bool)) : M bool :=
  match ms with
  | [] => ret false
  | [m] => m
  | m :: rest => py_or m (or_chain rest)
  end.

(** The strategies an [or]-chain over [order] gets to: it goes on after
    a strategy that returned [False] and stops after any other outcome. *)
Fixpoint reached (env : Env) (path : string) (order : list strategy)
  : list strategy :=
  match order with
  | [] => []
  | s :: rest =>
      match result (run_strategy s env path) with
      | Ok false => s :: reached env path rest
      | _ => [s]
      end
  end.

(** The strategies of [l] appear in the order of the chain: whatever
    comes later in [l] does not come earlier in the chain. *)
Definition in_fixed_order (l : list strategy) : Prop :=
  StronglySorted (fun a b => rank a <= rank b) l.

(** All five strategies return. *)
Definition all_return (env : Env) (path : string) : Prop :=
  forall s, returns (run_strategy s env path).

(** Starting [argv] fails: [subprocess.run] raises an [Exception], as it
    does with [FileNotFoundError] when the tool is not installed. *)
Definition invocation_fails (env : Env) (argv : list string) : Prop :=
  exists e, subprocess_run env argv = Raise e /\ is_Exception e = true.

(** Strategy [s] can not complete: the collaborator it starts with
    raises an [Exception] (the tool is missing, the file can not be
    parsed, the archive does not open). *)
Definition cannot_complete (s : strategy) (env : Env) (path : string)
  : Prop :=
  match s with
  | Triage => invocation_fails env ["olevba"; "-t"; path]
  | StreamMarker => invocation_fails env ["oledump.py"; path]
  | Structural =>
      exists e, olefile_isOleFile env path = Raise e
                /\ is_Exception e = true
  | Parser =>
      exists e, VBA_Parser_path env path = Raise e /\ is_Exception e = true
  | Nested =>
      zipfile_is_zipfile env path = Ok true
      /\ exists e, zipfile_ZipFile env path = Raise e
                   /\ is_Exception e = true
  end.

(** Strategy [s] completes and finds nothing: the tool runs and its
    output has no keyword or marker, the file is not an OLE file, the
    parser sees no macro, the file is not a ZIP archive. *)
Definition completes_negative (s : strategy) (env : Env) (path : string)
  : Prop :=
  match s with
  | Triage =>
      exists r, subprocess_run env ["olevba"; "-t"; path] = Ok r
                /\ keyword_hit (PyStr.lower (stdout r)) = false
  | StreamMarker =>
      exists r, subprocess_run env ["oledump.py"; path] = Ok r
                /\ any_marker (PyStr.splitlines (stdout r)) = Ok false
  | Structural => olefile_isOleFile env path = Ok false
  | Parser =>
      exists vp, VBA_Parser_path env path = Ok vp
                 /\ detect_macros vp = Ok false /\ close vp = Ok tt
  | Nested => zipfile_is_zipfile env path = Ok false
  end.

(** The result of a strategy tells "could not complete" from "completed
    and found nothing". *)
Definition result_distinguishes_inconclusive : Prop :=
  forall s env1 env2 path,
    cannot_complete s env1 path ->
    completes_negative s env2 path ->
    result (run_strategy s env1 path) <> result (run_strategy s env2 path).

(** No strategy lets an exception through, and a path that can not be
    opened is dealt with before any strategy runs. *)
Definition errors_surface_as_specified (env : Env) (path : string) : Prop :=
  all_return env path /\ checked_before_strategies env path.

(** The entry [subfile] of [z] starts with the OLE signature. *)
Definition ole_signed (env : Env) (z : ZipFile) (subfile : string) : Prop :=
  exists f, zopen z subfile = Ok f
            /\ zread f (Some (length (olefile_MAGIC env)))
               = Ok (olefile_MAGIC env).

(** The entry is readable and does not start with the OLE signature. *)
Definition not_ole_signed (env : Env) (z : ZipFile) (subfile : string)
  : Prop :=
  exists f magic,
    zopen z subfile = Ok f
    /\ zread f (Some (length (olefile_MAGIC env))) = Ok magic
    /\ bytes_eqb magic (olefile_MAGIC env) = false.

(** Handling the entry raises an [Exception]. *)
Definition unreadable (env : Env) (z : ZipFile) (subfile : string) : Prop :=
  exists e, result (scan_subfile env z subfile) = Raise e
            /\ is_Exception e = true.

(** The entry is passed over: the loop goes on with the next one. *)
Definition skipped (env : Env) (z : ZipFile) (subfile : string) : Prop :=
  result (scan_subfile env z subfile) = Ok None
  \/ unreadable env z subfile.

(** ** Sample environments *)

Module Samples.

(** The value of [olefile.MAGIC]. *)
Definition magic : bytes := [xd0; xcf; x11; xe0; xa1; xb1; x1a; xe1].

Definition nl : string := String (ascii_of_nat 10) EmptyString.

Definition parser_of (found : res bool) : VBA_Parser :=
  {| detect_macros := found; close := Ok tt |}.

Definition entry_of (content : bytes) : ZipExtFile :=
  {| zread := fun n => match n with
                       | Some k => Ok (firstn k content)
                       | None => Ok content
                       end |}.

(** No tool installed and no file at the path. *)
Definition env_bare : Env :=
  {| subprocess_run := fun _ => Raise FileNotFoundError;
     olefile_MAGIC := magic;
     olefile_isOleFile := fun _ => Raise FileNotFoundError;
     olefile_OleFileIO := fun _ => Raise FileNotFoundError;
     VBA_Parser_path := fun _ => Raise FileNotFoundError;
     VBA_Parser_data := fun _ _ => Raise (OtherException "FileOpenError");
     zipfile_is_zipfile := fun _ => Ok false;
     zipfile_ZipFile := fun _ => Raise FileNotFoundError |}.

(** Both tools installed; they write a complaint to standard error and
    nothing to standard output.  No file at the path. *)
Definition env_missing_file : Env :=
  {| subprocess_run := fun _ =>
       Ok {| returncode := 1; stdout := ""; stderr := "No such file" |};
     olefile_MAGIC := magic;
     olefile_isOleFile := fun _ => Raise FileNotFoundError;
     olefile_OleFileIO := fun _ => Raise FileNotFoundError;
     VBA_Parser_path := fun _ => Raise FileNotFoundError;
     VBA_Parser_data := fun _ _ => Raise (OtherException "FileOpenError");
     zipfile_is_zipfile := fun _ => Ok false;
     zipfile_ZipFile := fun _ => Raise FileNotFoundError |}.

(** An OLE directory given by the list of its stream names. *)
Definition ole_with (streams : list string) : OleFileIO :=
  {| ole_exists := fun name => Ok (existsb (String.eqb name) streams) |}.

(** No tool installed; an Excel 97 workbook with a VBA project. *)
Definition env_excel97 : Env :=
  {| subprocess_run := fun _ => Raise FileNotFoundError;
     olefile_MAGIC := magic;
     olefile_isOleFile := fun _ => Ok true;
     olefile_OleFileIO := fun _ =>
       Ok (ole_with ["workbook"; "_VBA_PROJECT_CUR"]);
     VBA_Parser_path := fun _ => Ok (parser_of (Ok true));
     VBA_Parser_data := fun _ _ => Raise (OtherException "FileOpenError");
     zipfile_is_zipfile := fun _ => Ok false;
     zipfile_ZipFile := fun _ => Raise BadZipFile |}.

(** No tool installed; an Excel 97 workbook without a VBA project. *)
Definition env_workbook_only : Env :=
  {| subprocess_run := fun _ => Raise FileNotFoundError;
     olefile_MAGIC := magic;
     olefile_isOleFile := fun _ => Ok true;
     olefile_OleFileIO := fun _ => Ok (ole_with ["workbook"]);
     VBA_Parser_path := fun _ => Ok (parser_of (Ok false));
     VBA_Parser_data := fun _ _ => Raise (OtherException "FileOpenError");
     zipfile_is_zipfile := fun _ => Ok false;
     zipfile_ZipFile := fun _ => Raise BadZipFile |}.

(** The parser opens the file and then fails while looking for macros. *)
Definition env_parser_breaks : Env :=
  {| subprocess_run := fun _ => Raise FileNotFoundError;
     olefile_MAGIC := magic;
     olefile_isOleFile := fun _ => Ok false;
     olefile_OleFileIO := fun _ => Raise (OtherException "NotOleFileError");
     VBA_Parser_path := fun _ =>
       Ok (parser_of (Raise (OtherException "ProcessingError")));
     VBA_Parser_data := fun _ _ => Raise (OtherException "FileOpenError");
     zipfile_is_zipfile := fun _ => Ok false;
     zipfile_ZipFile := fun _ => Raise BadZipFile |}.

(** What the stream dumper prints for a document with one macro stream. *)
Definition oledump_listing : string :=
  String.append "  1:       114 '\x01CompObj'"
    (String.append nl
       (String.append "  7: M    1562 'Macros/VBA/ThisDocument'" nl)).

(** What the triage tool prints for a document with macros. *)
Definition olevba_triage_table : string :=
  String.append "Flags        Filename"
    (String.append nl "OLE:MAS----- invoice.doc  AutoExec keywords found").

(** Both tools installed and reporting macros. *)
Definition env_tools_report : Env :=
  {| subprocess_run := fun argv =>
       match argv with
       | cmd :: _ =>
           if String.eqb cmd "olevba"
           then Ok {| returncode := 0; stdout := olevba_triage_table;
                      stderr := "" |}
           else Ok {| returncode := 0; stdout := oledump_listing;
                      stderr := "" |}
       | [] => Raise ValueError
       end;
     olefile_MAGIC := magic;
     olefile_isOleFile := fun _ => Ok true;
     olefile_OleFileIO := fun _ => Ok (ole_with ["WordDocument"; "Macros"]);
     VBA_Parser_path := fun _ => Ok (parser_of (Ok true));
     VBA_Parser_data := fun _ _ => Raise (OtherException "FileOpenError");
     zipfile_is_zipfile := fun _ => Ok false;
     zipfile_ZipFile := fun _ => Raise BadZipFile |}.

(** The content of an embedded OLE object: the signature and some more. *)
Definition ole_blob : bytes := magic ++ [x00; x00; x3e; x00].

Definition xml_blob : bytes := [x3c; x3f; x78; x6d; x6c; x20; x76; x65; x72].

(** A package with an XML part, an entry that can not be decompressed
    and an embedded OLE object carrying a VBA project. *)
Definition package : ZipFile :=
  {| namelist := ["[Content_Types].xml"; "word/broken.bin";
                  "word/vbaProject.bin"; "docProps/app.xml"];
     zopen := fun name =>
       if String.eqb name "word/broken.bin" then Raise BadZipFile
       else if String.eqb name "word/vbaProject.bin" then Ok (entry_of ole_blob)
       else Ok (entry_of xml_blob) |}.

(** No tool installed; the package above, which no strategy but the
    nested scanner recognises. *)
Definition env_package : Env :=
  {| subprocess_run := fun _ => Raise FileNotFoundError;
     olefile_MAGIC := magic;
     olefile_isOleFile := fun _ => Ok false;
     olefile_OleFileIO := fun _ => Raise (OtherException "NotOleFileError");
     VBA_Parser_path := fun _ => Raise (OtherException "FileOpenError");
     VBA_Parser_data := fun _ data =>
       if bytes_eqb (firstn 8 data) magic
       then Ok (parser_of (Ok true))
       else Raise (OtherException "FileOpenError");
     zipfile_is_zipfile := fun _ => Ok true;
     zipfile_ZipFile := fun _ => Ok package |}.

(** The probe says ZIP, opening the archive fails. *)
Definition env_truncated_zip : Env :=
  {| subprocess_run := fun _ => Raise FileNotFoundError;
     olefile_MAGIC := magic;
     olefile_isOleFile := fun _ => Ok false;
     olefile_OleFileIO := fun _ => Raise (OtherException "NotOleFileError");
     VBA_Parser_path := fun _ => Raise (OtherException "FileOpenError");
     VBA_Parser_data := fun _ _ => Raise (OtherException "FileOpenError");
     zipfile_is_zipfile := fun _ => Ok true;
     zipfile_ZipFile := fun _ => Raise BadZipFile |}.

End Samples.

(** ** Start of the script: imports and the check of the packages

    Lines 1 to 24 of the script run before anything else: the [import]
    statements, then a loop over [required_packages] that asks
    [importlib.util.find_spec] for each package, prints two lines and
    leaves with [sys.exit(1)] when one is missing.  Under
    [if __name__ == '__main__'] the script then sets up logging and
    calls [main()]. *)

Module Startup.

(** The Python installation: what an [import] does and what
    [importlib.util.find_spec] answers ([None] or a module spec, kept
    here as the name of its origin). *)
Record Interp : Type := {
  import_module : string -> res unit;
  find_spec : string -> res (option string)
}.

(** The modules imported by lines 1 to 8, in order. *)
Definition imported_modules : list string :=
  ["argparse"; "subprocess"; "olefile"; "zipfile"; "logging"; "importlib";
   "sys"; "oletools.olevba"].

Definition required_packages : list string := ["olefile"; "oletools"].

(** [sep.join(items)] *)
Fixpoint join (sep : string) (items : list string) : string :=
  match items with
  | [] => EmptyString
  | [x] => x
  | x :: rest => String.append x (String.append sep (join sep rest))
  end.

(** The [for pkg in required_packages] loop; [missing] is the list built
    so far, [missing.append(pkg)] adds at its end.  An exception of
    [find_spec] is not caught. *)
Fixpoint collect_missing (interp : Interp) (pkgs : list string)
  (missing : list string) : res (list string) :=
  match pkgs with
  | [] => Ok missing
  | pkg :: rest =>
      match find_spec interp pkg with
      | Ok None => collect_missing interp rest (missing ++ [pkg])
      | Ok (Some _) => collect_missing interp rest missing
      | Raise e => Raise e
      end
  end.

(** How a stretch of the script ends: it goes on, the interpreter exits
    with a status, or an exception is left uncaught. *)
Inductive flow : Type :=
| Continue
| Exit (status : nat)
| Crash (e : exn).

(** Lines 10 to 24.  An empty list is false in [if missing:]. *)
Definition dependency_check (interp : Interp) : list event * flow :=
  match collect_missing interp required_packages [] with
  | Raise e => ([], Crash e)
  | Ok [] => ([], Continue)
  | Ok missing =>
      ([EvPrint (String.append "Missing required packages: "
                   (join ", " missing));
        EvPrint (String.append "Please install them using: pip install "
                   (join " " missing))],
       Exit 1)
  end.

(** The [import] statements in order; the first that raises ends the
    script. *)
Fixpoint run_imports (interp : Interp) (modules : list string) : flow :=
  match modules with
  | [] => Continue
  | m :: rest =>
      match import_module interp m with
      | Ok _ => run_imports interp rest
      | Raise e => Crash e
      end
  end.

(** The script run as a program on [path]: imports, check of the
    packages, then [main()]. *)
Definition script (interp : Interp) (env : Env) (path : string)
  : list event * flow :=
  match run_imports interp imported_modules with
  | Continue =>
      match dependency_check interp with
      | (out, Continue) =>
          (out ++ trace (main env path),
           match result (main env path) with
           | Ok _ => Continue
           | Raise e => Crash e
           end)
      | stopped => stopped
      end
  | stopped => ([], stopped)
  end.

(** [find_spec] agrees with [import]: a package whose import succeeded
    is found. *)
Definition imports_agree (interp : Interp) : Prop :=
  (import_module interp "olefile" = Ok tt ->
   exists origin, find_spec interp "olefile" = Ok (Some origin))
  /\ (import_module interp "oletools.olevba" = Ok tt ->
      exists origin, find_spec interp "oletools" = Ok (Some origin)).

(** [find_spec] says the package is missing. *)
Definition is_missing (interp : Interp) (pkg : string) : bool :=
  match find_spec interp pkg with
  | Ok None => true
  | _ => false
  end.

(** A complete installation. *)
Definition interp_complete : Interp :=
  {| import_module := fun _ => Ok tt;
     find_spec := fun name => Ok (Some name) |}.

(** An installation in which [find_spec] does not see [oletools]
    although the imports went through (a stale finder cache). *)
Definition interp_stale : Interp :=
  {| import_module := fun _ => Ok tt;
     find_spec := fun name =>
       if String.eqb name "oletools" then Ok None else Ok (Some name) |}.

(** An installation without [olefile]. *)
Definition interp_no_olefile : Interp :=
  {| import_module := fun name =>
       if String.eqb name "olefile"
       then Raise (OtherException "ModuleNotFoundError")
       else Ok tt;
     find_spec := fun name =>
       if String.eqb name "olefile" then Ok None else Ok (Some name) |}.

End Startup.

(** ** Further ways to read a trace *)

Definition is_zip_close (ev : event) : bool :=
  match ev with EvZipClose _ => true | _ => false end.

(** A parser is created, from the path or from memory. *)
Definition is_parser_open (ev : event) : bool :=
  match ev with EvVBAParser _ => true | _ => false end.

(** One open and one sized read: what an entry costs when it is not
    OLE signed. *)
Definition probe_events (env : Env) (subfile : string) : list event :=
  [EvZipOpen subfile;
   EvZipRead subfile (Some (length (olefile_MAGIC env)))].

(** A character of [s] is white space. *)
Fixpoint has_space (s : string) : bool :=
  match s with
  | EmptyString => false
  | String c s' => PyStr.isspace c || has_space s'
  end.

(** ** More sample environments *)

Module MoreSamples.

Import Samples.

(** The parser finds macros and then fails to close. *)
Definition env_close_fails : Env :=
  {| subprocess_run := fun _ => Raise FileNotFoundError;
     olefile_MAGIC := magic;
     olefile_isOleFile := fun _ => Ok false;
     olefile_OleFileIO := fun _ => Raise (OtherException "NotOleFileError");
     VBA_Parser_path := fun _ =>
       Ok {| detect_macros := Ok true; close := Raise OSError |};
     VBA_Parser_data := fun _ _ => Raise (OtherException "FileOpenError");
     zipfile_is_zipfile := fun _ => Ok false;
     zipfile_ZipFile := fun _ => Raise BadZipFile |}.

(** The user interrupts every tool that is started. *)
Definition env_interrupted : Env :=
  {| subprocess_run := fun _ => Raise KeyboardInterrupt;
     olefile_MAGIC := magic;
     olefile_isOleFile := fun _ => Ok false;
     olefile_OleFileIO := fun _ => Raise (OtherException "NotOleFileError");
     VBA_Parser_path := fun _ => Ok (parser_of (Ok false));
     VBA_Parser_data := fun _ _ => Raise (OtherException "FileOpenError");
     zipfile_is_zipfile := fun _ => Ok false;
     zipfile_ZipFile := fun _ => Raise BadZipFile |}.

(** The tools of [env_tools_report] printing the same text, but ending
    with status 2 after a warning on standard error. *)
Definition env_tools_warn : Env :=
  {| subprocess_run := fun argv =>
       match argv with
       | cmd :: _ =>
           if String.eqb cmd "olevba"
           then Ok {| returncode := 2; stdout := olevba_triage_table;
                      stderr := "WARNING" |}
           else Ok {| returncode := 2; stdout := oledump_listing;
                      stderr := "WARNING" |}
       | [] => Raise ValueError
       end;
     olefile_MAGIC := magic;
     olefile_isOleFile := fun _ => Ok true;
     olefile_OleFileIO := fun _ => Ok (ole_with ["WordDocument"; "Macros"]);
     VBA_Parser_path := fun _ => Ok (parser_of (Ok true));
     VBA_Parser_data := fun _ _ => Raise (OtherException "FileOpenError");
     zipfile_is_zipfile := fun _ => Ok false;
     zipfile_ZipFile := fun _ => Raise BadZipFile |}.

(** The package of [env_package] with a parser that fails on the
    embedded OLE object. *)
Definition env_package_breaks : Env :=
  {| subprocess_run := fun _ => Raise FileNotFoundError;
     olefile_MAGIC := magic;
     olefile_isOleFile := fun _ => Ok false;
     olefile_OleFileIO := fun _ => Raise (OtherException "NotOleFileError");
     VBA_Parser_path := fun _ => Raise (OtherException "FileOpenError");
     VBA_Parser_data := fun _ _ =>
       Ok (parser_of (Raise (OtherException "ProcessingError")));
     zipfile_is_zipfile := fun _ => Ok true;
     zipfile_ZipFile := fun _ => Ok package |}.

(** An installation whose finder answers for [olefile] and fails on
    [oletools]. *)
Definition interp_finder_fails_late : Startup.Interp :=
  {| Startup.import_module := fun _ => Ok tt;
     Startup.find_spec := fun name =>
       if String.eqb name "olefile" then Ok (Some name)
       else Raise ValueError |}.

(** The XML parts of the package. *)
Definition xml_parts : list string :=
  ["[Content_Types].xml"; "docProps/app.xml"].

End MoreSamples.

(** ** Lines, tokens and letter case, read independently of the code

    The notions of the claims about the two adapters are spelled out
    here without the string functions the script calls: a line is a
    maximal stretch of the output without a line boundary, a token is a
    maximal stretch of a line without white space, and a letter matches
    a keyword letter when it is that letter or its capital.  The
    character classes are given by their code points. *)

Module Reading.

(** White space: TAB, LF, VT, FF, CR, FS, GS, RS, US, SPACE, NEL, NBSP. *)
Definition white_codes : list nat :=
  [9; 10; 11; 12; 13; 28; 29; 30; 31; 32; 133; 160].

(** Line boundaries: LF, VT, FF, CR, FS, GS, RS, NEL. *)
Definition break_codes : list nat := [10; 11; 12; 13; 28; 29; 30; 133].

Definition white (c : ascii) : bool :=
  existsb (Nat.eqb (nat_of_ascii c)) white_codes.

Definition line_break (c : ascii) : bool :=
  existsb (Nat.eqb (nat_of_ascii c)) break_codes.

(** Every character of [s] satisfies [p]. *)
Fixpoint every (p : ascii -> bool) (s : string) : bool :=
  match s with
  | EmptyString => true
  | String c s' => p c && every p s'
  end.

(** The first / the last character of [s] satisfies [p]. *)
Definition starts_with (p : ascii -> bool) (s : string) : bool :=
  match s with
  | EmptyString => false
  | String c _ => p c
  end.

Fixpoint ends_with (p : ascii -> bool) (s : string) : bool :=
  match s with
  | EmptyString => false
  | String c EmptyString => p c
  | String _ s' => ends_with p s'
  end.

(** Nothing but white space. *)
Definition blank (s : string) : bool := every white s.

(** A token: not empty, no white space. *)
Definition word (s : string) : bool :=
  match s with
  | EmptyString => false
  | _ => every (fun c => negb (white c)) s
  end.

Definition no_break (s : string) : bool :=
  every (fun c => negb (line_break c)) s.

(** Where a line may end: at the end of the text or before a boundary. *)
Definition line_ends (after : string) : Prop :=
  after = EmptyString \/ starts_with line_break after = true.

(** [line] is a line of [out]: a stretch without a line boundary that
    begins at the start of [out] or after a boundary and ends at the end
    of [out] or before a boundary. *)
Definition output_line (out line : string) : Prop :=
  exists before after,
    out = String.append before (String.append line after)
    /\ no_break line = true
    /\ (before = EmptyString \/ ends_with line_break before = true)
    /\ (after = EmptyString \/ starts_with line_break after = true).

(** [tok] is the second white-space delimited token of [line]: the line
    is white space, a first token, white space, [tok], and then nothing
    or something that begins with white space. *)
Definition second_token (line tok : string) : Prop :=
  exists lead first gap rest,
    line = String.append lead
             (String.append first
                (String.append gap (String.append tok rest)))
    /\ blank lead = true
    /\ word first = true
    /\ gap <> EmptyString
    /\ blank gap = true
    /\ word tok = true
    /\ (rest = EmptyString \/ starts_with white rest = true).

(** The marker "m" in either case. *)
Definition is_marker (tok : string) : Prop := tok = "m" \/ tok = "M".

(** [c] is the keyword letter [k] or, for a letter a..z, its capital. *)
Definition same_letter (c k : ascii) : bool :=
  Ascii.eqb c k
  || ((97 <=? nat_of_ascii k) && (nat_of_ascii k <=? 122)
      && (nat_of_ascii c + 32 =? nat_of_ascii k)).

(** [mid] is the keyword [k] up to the case of its letters. *)
Fixpoint matches_ignoring_case (mid k : string) : bool :=
  match mid, k with
  | EmptyString, EmptyString => true
  | String c mid', String d k' =>
      same_letter c d && matches_ignoring_case mid' k'
  | _, _ => false
  end.

(** A case-insensitive substring search finds the keyword [k] in [s]. *)
Definition found_ignoring_case (k s : string) : Prop :=
  exists pre mid post,
    s = String.append pre (String.append mid post)
    /\ matches_ignoring_case mid k = true.

(** All letters of [k] are lower-case letters a..z. *)
Definition lower_letters (k : string) : bool :=
  every (fun c => (97 <=? nat_of_ascii c) && (nat_of_ascii c <=? 122)) k.

End Reading.

(** ** The claims about the verdict and the triage output, as worded *)


(** Standard output and standard error of a run, combined.  Where this
    is used one of the two is empty, so the order plays no role. *)
Definition combined_output (r : CompletedProcess) : string :=
  String.append (stdout r) (stderr r).

(** The triage adapter searches the combined output of the tool. *)
Definition triage_searches_combined_output (env : Env) (path : string)
  : Prop :=
  positive (run_olevba_triage env path) <->
  exists r, subprocess_run env ["olevba"; "-t"; path] = Ok r
            /\ exists k, In k keywords
                         /\ Reading.found_ignoring_case k
                              (combined_output r).

(** ** Sample environments for the revised claims *)

Module RevisedSamples.

Import Samples.


(** The triage tool fails on the file: nothing on standard output, a
    traceback on standard error. *)
Definition env_stderr_only : Env :=
  {| subprocess_run := fun _ =>
       Ok {| returncode := 1; stdout := "";
             stderr := "Traceback: olevba.py, line 1" |};
     olefile_MAGIC := magic;
     olefile_isOleFile := fun _ => Ok false;
     olefile_OleFileIO := fun _ => Raise (OtherException "NotOleFileError");
     VBA_Parser_path := fun _ => Raise (OtherException "FileOpenError");
     VBA_Parser_data := fun _ _ => Raise (OtherException "FileOpenError");
     zipfile_is_zipfile := fun _ => Ok false;
     zipfile_ZipFile := fun _ => Raise BadZipFile |}.

(** An OLE file whose directory can not be searched. *)
Definition env_ole_breaks : Env :=
  {| subprocess_run := fun _ => Raise FileNotFoundError;
     olefile_MAGIC := magic;
     olefile_isOleFile := fun _ => Ok true;
     olefile_OleFileIO := fun _ =>
       Ok {| ole_exists := fun _ => Raise (OtherException "OleFileError") |};
     VBA_Parser_path := fun _ => Raise (OtherException "FileOpenError");
     VBA_Parser_data := fun _ _ => Raise (OtherException "FileOpenError");
     zipfile_is_zipfile := fun _ => Ok false;
     zipfile_ZipFile := fun _ => Raise BadZipFile |}.

End RevisedSamples.

(** ** Proof tactics *)

(** Unfold the monad and split on the outcome of every external call. *)
Ltac unfold_monad :=
  unfold try_except, try_except_Exception, finally, bind, call, emit, lift,
    ret, result, trace; cbn [fst snd].

Ltac split_outcomes :=
  repeat match goal with
         | |- context [match ?x with _ => _ end] =>
             lazymatch x with
             | context [match _ with _ => _ end] => fail
             | _ => destruct x eqn:?; cbn [fst snd app]
             end
         end.

(* ===================================================================== *)
(** * Part II: properties *)
(* ===================================================================== *)

(** ** Facts about the string operations *)

Section StringFacts.

Import PyStr.

Lemma lower_char_m (c : ascii) :
  lower_char c = "m"%char <-> c = "m"%char \/ c = "M"%char.
Proof.
  split.
  - destruct c as [[] [] [] [] [] [] [] []]; vm_compute; intro H;
      solve [ discriminate H | left; reflexivity | right; reflexivity ].
  - intros [-> | ->]; reflexivity.
Qed.

Lemma lower_is_m (tok : string) :
  lower tok = "m" <-> tok = "m" \/ tok = "M".
Proof.
  split.
  - destruct tok as [| c [| d rest]]; simpl; intro H; try discriminate H.
    injection H as H. apply lower_char_m in H. destruct H as [-> | ->]; auto.
  - intros [-> | ->]; reflexivity.
Qed.

Lemma ci_equal_m (tok : string) :
  ci_equal tok "m" <-> tok = "m" \/ tok = "M".
Proof. unfold ci_equal. change (lower "m") with "m". apply lower_is_m. Qed.

Lemma lower_append (a b : string) :
  lower (String.append a b) = String.append (lower a) (lower b).
Proof. induction a as [| c a IH]; simpl; [reflexivity | now rewrite IH]. Qed.

Lemma split_from_lstrip (s : string) :
  split_from EmptyString (lstrip s) = split_from EmptyString s.
Proof.
  induction s as [| c s IH]; simpl; [reflexivity |].
  destruct (isspace c) eqn:Hc; simpl.
  - exact IH.
  - rewrite Hc. reflexivity.
Qed.

Lemma split_lstrip (s : string) : split (lstrip s) = split s.
Proof. apply split_from_lstrip. Qed.

(** [startswith] against a lowered text finds a prefix of the text that
    lowers to the needle. *)
Lemma startswith_lower (k s : string) :
  startswith k (lower s) = true <->
  exists mid post, s = String.append mid post /\ lower mid = k.
Proof.
  revert s. induction k as [| a k IH]; intro s; simpl.
  - split; [| reflexivity]. intros _. exists EmptyString, s. split; reflexivity.
  - destruct s as [| b s]; simpl.
    + split; [discriminate |].
      intros (mid & post & Hs & Hm).
      destruct mid; simpl in *; discriminate.
    + rewrite andb_true_iff, Ascii.eqb_eq, IH. split.
      * intros (Hab & mid & post & -> & <-).
        exists (String b mid), post. simpl. rewrite Hab. split; reflexivity.
      * intros (mid & post & Hs & Hm).
        destruct mid as [| c mid]; simpl in *; [discriminate |].
        injection Hs as -> ->. injection Hm as -> <-.
        split; [reflexivity |]. exists mid, post. split; reflexivity.
Qed.

(** [k in s.lower()] is a case-insensitive substring search for a
    needle that is already in lower case. *)
Lemma contains_lower (k s : string) :
  contains k (lower s) = true <->
  exists pre mid post,
    s = String.append pre (String.append mid post) /\ lower mid = k.
Proof.
  induction s as [| c s IH].
  - simpl. rewrite orb_false_r. rewrite (startswith_lower k EmptyString).
    split.
    + intros (mid & post & Hs & Hm). exists EmptyString, mid, post. auto.
    + intros (pre & mid & post & Hs & Hm).
      destruct pre; simpl in Hs; [| discriminate]. eauto.
  - change (lower (String c s)) with (String (lower_char c) (lower s)).
    cbn [contains]. rewrite orb_true_iff.
    change (String (lower_char c) (lower s)) with (lower (String c s)).
    rewrite startswith_lower, IH. split.
    + intros [(mid & post & Hs & Hm) | (pre & mid & post & Hs & Hm)].
      * exists EmptyString, mid, post. auto.
      * exists (String c pre), mid, post. simpl. rewrite Hs. auto.
    + intros (pre & mid & post & Hs & Hm).
      destruct pre as [| c' pre]; simpl in Hs.
      * left. eauto.
      * injection Hs as <- ->. right. eauto.
Qed.

Lemma keyword_lower (k : string) : In k keywords -> lower k = k.
Proof.
  unfold keywords. simpl.
  intros [<- | [<- | [<- | []]]]; reflexivity.
Qed.

Lemma contains_lower_ci (k s : string) :
  In k keywords -> (contains k (lower s) = true <-> ci_occurs k s).
Proof.
  intro Hk. rewrite contains_lower. unfold ci_occurs, ci_equal.
  rewrite (keyword_lower k Hk). reflexivity.
Qed.

Lemma keyword_hit_lower (s : string) :
  keyword_hit (lower s) = true <-> exists k, In k keywords /\ ci_occurs k s.
Proof.
  unfold keyword_hit. rewrite !orb_true_iff.
  rewrite (contains_lower_ci "macros"), (contains_lower_ci "autoexec"),
    (contains_lower_ci "vba") by (unfold keywords; simpl; auto).
  unfold keywords. simpl. split.
  - intros [[H | H] | H]; eauto 6.
  - intros (k & [<- | [<- | [<- | []]]] & H); auto.
Qed.

End StringFacts.

(** ** Facts about the monad *)

Section MonadFacts.

Context {A B : Type}.

Lemma bind_Ok (m : M A) (f : A -> M B) (a : A) :
  result m = Ok a -> bind m f = (trace m ++ trace (f a), result (f a)).
Proof. unfold bind. intros ->. reflexivity. Qed.

Lemma bind_Raise (m : M A) (f : A -> M B) (e : exn) :
  result m = Raise e -> bind m f = (trace m, Raise e).
Proof. unfold bind. intros ->. reflexivity. Qed.

Lemma trace_bind_prefix (m : M A) (f : A -> M B) :
  exists tl, trace (bind m f) = trace m ++ tl.
Proof.
  unfold bind. destruct (result m); simpl.
  - eexists. reflexivity.
  - exists []. now rewrite app_nil_r.
Qed.

End MonadFacts.

Lemma py_or_true (a b : M bool) :
  result a = Ok true -> py_or a b = (trace a, Ok true).
Proof.
  intro H. unfold py_or. rewrite (bind_Ok _ _ _ H). simpl.
  now rewrite app_nil_r.
Qed.

Lemma py_or_false (a b : M bool) :
  result a = Ok false -> py_or a b = (trace a ++ trace b, result b).
Proof. intro H. unfold py_or. now rewrite (bind_Ok _ _ _ H). Qed.

Lemma py_or_Raise (a b : M bool) (e : exn) :
  result a = Raise e -> py_or a b = (trace a, Raise e).
Proof. intro H. unfold py_or. now rewrite (bind_Raise _ _ _ H). Qed.

Lemma M_eta {A} (m : M A) : m = (trace m, result m).
Proof. destruct m; reflexivity. Qed.

(** ** The [or]-chain *)

Section OrChain.

Variable env : Env.
Variable path : string.

Local Abbreviation run := (fun s => run_strategy s env path).

Lemma has_macros_or_chain :
  has_macros env path = or_chain (map run fixed_order).
Proof. reflexivity. Qed.

Lemma or_chain_cons (m : M bool) (ms : list (M bool)) :
  ms <> [] -> or_chain (m :: ms) = py_or m (or_chain ms).
Proof. destruct ms; [congruence | reflexivity]. Qed.

(** The trace of a chain is made of the traces of the strategies it
    gets to, in order. *)
Lemma or_chain_trace (order : list strategy) :
  order <> [] ->
  trace (or_chain (map run order))
  = flat_map (fun s => trace (run_strategy s env path))
      (reached env path order).
Proof.
  induction order as [| s rest IH]; [congruence |]. intros _.
  destruct rest as [| s' rest'].
  - cbn [map or_chain reached].
    destruct (result (run_strategy s env path)) as [[] |];
      cbn [flat_map]; now rewrite app_nil_r.
  - cbn [map]. rewrite or_chain_cons by discriminate.
    cbn [reached].
    destruct (result (run_strategy s env path)) as [[] | e] eqn:Hs.
    + rewrite (py_or_true _ _ Hs). simpl. now rewrite app_nil_r.
    + rewrite (py_or_false _ _ Hs). cbn [trace fst flat_map].
      f_equal. apply IH. discriminate.
    + rewrite (py_or_Raise _ _ _ Hs). simpl. now rewrite app_nil_r.
Qed.


End OrChain.

(** ** The strategies one by one *)

Section Triage.

Variable env : Env.
Variable path : string.

Lemma run_olevba_triage_eq :
  run_olevba_triage env path
  = ([EvSubprocess ["olevba"; "-t"; path]],
     Ok match subprocess_run env ["olevba"; "-t"; path] with
        | Ok r => keyword_hit (PyStr.lower (stdout r))
        | Raise _ => false
        end).
Proof.
  unfold run_olevba_triage. unfold_monad.
  destruct (subprocess_run env ["olevba"; "-t"; path]); reflexivity.
Qed.

Lemma run_olevba_triage_returns : returns (run_olevba_triage env path).
Proof. rewrite run_olevba_triage_eq. eexists. reflexivity. Qed.

Lemma run_olevba_triage_positive :
  positive (run_olevba_triage env path) <->
  exists r, subprocess_run env ["olevba"; "-t"; path] = Ok r
            /\ keyword_hit (PyStr.lower (stdout r)) = true.
Proof.
  unfold positive. rewrite run_olevba_triage_eq. simpl.
  destruct (subprocess_run env ["olevba"; "-t"; path]) as [r | e].
  - split.
    + intro H. injection H as H. eauto.
    + intros (r' & Hr & Hk). injection Hr as <-. now rewrite Hk.
  - split; [discriminate | intros (r & Hr & _); discriminate].
Qed.

End Triage.

Section StreamMarker.

Lemma any_marker_total (lines : list string) :
  exists b, any_marker lines = Ok b.
Proof.
  induction lines as [| line rest IH]; simpl; [eauto |].
  destruct (1 <? length (PyStr.split (PyStr.lstrip line))) eqn:Hlen; [| exact IH].
  apply Nat.ltb_lt in Hlen. unfold getitem.
  destruct (nth_error (PyStr.split (PyStr.lstrip line)) 1) as [tok |] eqn:Hnth.
  - destruct (String.eqb (PyStr.lower tok) "m"); eauto.
  - apply nth_error_None in Hnth. lia.
Qed.

Lemma any_marker_short (line : string) (rest : list string) :
  short_line line -> any_marker (line :: rest) = any_marker rest.
Proof.
  unfold short_line. intro H. simpl. rewrite split_lstrip.
  destruct (1 <? length (PyStr.split line)) eqn:Hlen; [| reflexivity].
  apply Nat.ltb_lt in Hlen. lia.
Qed.

Lemma any_marker_true (lines : list string) :
  any_marker lines = Ok true <->
  exists line, In line lines /\ marker_line line.
Proof.
  induction lines as [| line rest IH]; simpl.
  - split; [discriminate | intros (l & [] & _)].
  - rewrite split_lstrip. unfold getitem.
    destruct (1 <? length (PyStr.split line)) eqn:Hlen.
    + apply Nat.ltb_lt in Hlen.
      destruct (nth_error (PyStr.split line) 1) as [tok |] eqn:Hnth;
        [| apply nth_error_None in Hnth; lia].
      destruct (String.eqb (PyStr.lower tok) "m") eqn:Hm.
      * apply String.eqb_eq in Hm. split; [| reflexivity]. intros _.
        exists line. split; [now left |]. exists tok. split; [exact Hnth |].
        exact Hm.
      * apply String.eqb_neq in Hm. rewrite IH. split.
        -- intros (l & Hin & Hl). eauto.
        -- intros (l & [<- | Hin] & Hl); [| eauto].
           destruct Hl as (tok' & Hnth' & Hci).
           rewrite Hnth in Hnth'. injection Hnth' as <-.
           exfalso. apply Hm. exact Hci.
    + apply Nat.ltb_ge in Hlen. rewrite IH. split.
      * intros (l & Hin & Hl). eauto.
      * intros (l & [<- | Hin] & Hl); [| eauto].
        destruct Hl as (tok & Hnth & _).
        assert (1 < length (PyStr.split line))
          by (apply nth_error_Some; congruence).
        lia.
Qed.

Variable env : Env.
Variable path : string.

Lemma run_oledump_check_eq :
  run_oledump_check env path
  = ([EvSubprocess ["oledump.py"; path]],
     match subprocess_run env ["oledump.py"; path] with
     | Ok r => any_marker (PyStr.splitlines (stdout r))
     | Raise e => if is_Exception e then Ok false else Raise e
     end).
Proof.
  unfold run_oledump_check. unfold_monad.
  destruct (subprocess_run env ["oledump.py"; path]) as [r | e]; cbn [fst snd app].
  - destruct (any_marker_total (PyStr.splitlines (stdout r))) as [b ->].
    reflexivity.
  - destruct (is_Exception e); reflexivity.
Qed.

Lemma run_oledump_check_escape (e : exn) :
  result (run_oledump_check env path) = Raise e ->
  is_Exception e = false.
Proof.
  rewrite run_oledump_check_eq. simpl.
  destruct (subprocess_run env ["oledump.py"; path]) as [r | e'].
  - destruct (any_marker_total (PyStr.splitlines (stdout r))) as [b ->].
    discriminate.
  - destruct (is_Exception e') eqn:He; [discriminate |].
    intro H. injection H as <-. exact He.
Qed.

End StreamMarker.

Section Structural.

Variable env : Env.
Variable path : string.

Lemma check_excel97_macros_returns : returns (check_excel97_macros env path).
Proof.
  unfold returns, check_excel97_macros. unfold_monad.
  split_outcomes; eexists; reflexivity.
Qed.

Lemma check_excel97_macros_positive :
  positive (check_excel97_macros env path) <->
  olefile_isOleFile env path = Ok true
  /\ exists ole, olefile_OleFileIO env path = Ok ole
                 /\ ole_exists ole "workbook" = Ok true
                 /\ ole_exists ole "_VBA_PROJECT_CUR" = Ok true.
Proof.
  unfold positive, check_excel97_macros. unfold_monad.
  destruct (olefile_isOleFile env path) as [[] | e0]; cbn [fst snd app].
  2, 3: split; [discriminate | intros [H _]; discriminate].
  destruct (olefile_OleFileIO env path) as [ole | e1]; cbn [fst snd app].
  2: split; [discriminate | intros (_ & ole & H & _); discriminate].
  destruct (ole_exists ole "workbook") as [[] | e2] eqn:Hwb; cbn [fst snd app].
  2, 3: split; [discriminate |];
    intros (_ & ole' & H & Hwb' & _); injection H as <-; congruence.
  destruct (ole_exists ole "_VBA_PROJECT_CUR") as [[] | e3] eqn:Hvba;
    cbn [fst snd app].
  - split; [| reflexivity]. intros _. split; [reflexivity |]. eauto.
  - split; [discriminate |].
    intros (_ & ole' & H & _ & Hvba'). injection H as <-. congruence.
  - split; [discriminate |].
    intros (_ & ole' & H & _ & Hvba'). injection H as <-. congruence.
Qed.

Lemma check_excel97_macros_belongs :
  Forall (fun ev => belongs Structural ev = true)
    (trace (check_excel97_macros env path)).
Proof.
  unfold check_excel97_macros. unfold_monad.
  split_outcomes; repeat constructor.
Qed.

Lemma check_excel97_macros_head :
  exists tl, trace (check_excel97_macros env path) = EvIsOleFile path :: tl.
Proof.
  unfold check_excel97_macros. unfold_monad.
  split_outcomes; eexists; reflexivity.
Qed.

End Structural.

Section ParserStrategy.

Variable env : Env.
Variable path : string.

Lemma run_vba_parser_returns : returns (run_vba_parser env path).
Proof.
  unfold returns, run_vba_parser. unfold_monad.
  split_outcomes; eexists; reflexivity.
Qed.

Lemma run_vba_parser_belongs :
  Forall (fun ev => belongs Parser ev = true) (trace (run_vba_parser env path)).
Proof.
  unfold run_vba_parser. unfold_monad.
  split_outcomes; repeat constructor.
Qed.

Lemma run_vba_parser_head :
  exists tl,
    trace (run_vba_parser env path) = EvVBAParser (FromPath path) :: tl.
Proof.
  unfold run_vba_parser. unfold_monad.
  split_outcomes; eexists; reflexivity.
Qed.

(** The parser strategy answers [True] exactly when the parser opens,
    finds macros and closes without an error. *)
Lemma run_vba_parser_positive :
  positive (run_vba_parser env path) <->
  exists vp, VBA_Parser_path env path = Ok vp
             /\ detect_macros vp = Ok true
             /\ exists u, close vp = Ok u.
Proof.
  unfold positive, run_vba_parser. unfold_monad.
  destruct (VBA_Parser_path env path) as [vp | e0]; cbn [fst snd app].
  2: split; [discriminate | intros (vp & H & _); discriminate].
  destruct (detect_macros vp) as [b | e1] eqn:Hd; cbn [fst snd app].
  2: split; [discriminate |];
    intros (vp' & H & Hd' & _); injection H as <-; congruence.
  destruct (close vp) as [u | e2] eqn:Hc; cbn [fst snd app].
  - split.
    + intro H. injection H as ->. eauto.
    + intros (vp' & H & Hd' & _). injection H as <-. congruence.
  - split; [discriminate |].
    intros (vp' & H & _ & u & Hc'). injection H as <-. congruence.
Qed.

End ParserStrategy.

Section NestedScanner.

Variable env : Env.

Lemma scan_subfile_belongs (z : ZipFile) (subfile : string) :
  Forall (fun ev => belongs Nested ev = true)
    (trace (scan_subfile env z subfile)).
Proof.
  unfold scan_subfile. unfold_monad.
  split_outcomes; repeat constructor.
Qed.

(** The body of the loop never executes a [return False]. *)
Lemma scan_subfile_not_false (z : ZipFile) (subfile : string) :
  result (scan_subfile env z subfile) <> Ok (Some false).
Proof.
  unfold scan_subfile. unfold_monad.
  split_outcomes; discriminate.
Qed.

(** One turn of the loop, by the outcome of its body. *)
Lemma for_subfiles_cons (z : ZipFile) (subfile : string) (rest : list string) :
  for_subfiles env z (subfile :: rest)
  = match result (scan_subfile env z subfile) with
    | Ok (Some v) => (trace (scan_subfile env z subfile), Ok (Some v))
    | Ok None =>
        (trace (scan_subfile env z subfile) ++ trace (for_subfiles env z rest),
         result (for_subfiles env z rest))
    | Raise e =>
        if is_Exception e
        then (trace (scan_subfile env z subfile)
              ++ EvLogDebug (FailedToRead subfile e)
                 :: trace (for_subfiles env z rest),
              result (for_subfiles env z rest))
        else (trace (scan_subfile env z subfile), Raise e)
    end.
Proof.
  cbn [for_subfiles].
  destruct (scan_subfile env z subfile) as [t [[v |] | e]];
    unfold_monad; cbn [fst snd].
  - now rewrite app_nil_r.
  - reflexivity.
  - destruct (is_Exception e); cbn [fst snd].
    + rewrite <- app_assoc. reflexivity.
    + reflexivity.
Qed.

Lemma for_subfiles_belongs (z : ZipFile) (names : list string) :
  Forall (fun ev => belongs Nested ev = true)
    (trace (for_subfiles env z names)).
Proof.
  induction names as [| subfile rest IH]; [constructor |].
  rewrite for_subfiles_cons.
  pose proof (scan_subfile_belongs z subfile) as Hb.
  destruct (result (scan_subfile env z subfile)) as [[v |] | e]; cbn [trace fst].
  - exact Hb.
  - apply Forall_app. split; assumption.
  - destruct (is_Exception e); cbn [trace fst]; [| exact Hb].
    apply Forall_app. split; [exact Hb |]. constructor; [reflexivity | exact IH].
Qed.

(** The loop lets no [Exception] through. *)
Lemma for_subfiles_escape (z : ZipFile) (names : list string) (e : exn) :
  result (for_subfiles env z names) = Raise e -> is_Exception e = false.
Proof.
  induction names as [| subfile rest IH]; [discriminate |].
  rewrite for_subfiles_cons.
  destruct (result (scan_subfile env z subfile)) as [[v |] | e']; cbn [result snd].
  - discriminate.
  - exact IH.
  - destruct (is_Exception e') eqn:He; cbn [result snd]; [exact IH |].
    intro H. injection H as <-. exact He.
Qed.

Lemma for_subfiles_not_false (z : ZipFile) (names : list string) :
  result (for_subfiles env z names) <> Ok (Some false).
Proof.
  induction names as [| subfile rest IH]; [discriminate |].
  rewrite for_subfiles_cons.
  pose proof (scan_subfile_not_false z subfile) as Hn.
  destruct (result (scan_subfile env z subfile)) as [[v |] | e']; cbn [result snd].
  - exact Hn.
  - exact IH.
  - destruct (is_Exception e'); cbn [result snd]; [exact IH | discriminate].
Qed.

(** A skipped entry does not end the loop. *)
Lemma for_subfiles_skip (z : ZipFile) (subfile : string) (rest : list string) :
  skipped env z subfile ->
  result (for_subfiles env z (subfile :: rest))
  = result (for_subfiles env z rest)
  /\ exists t, trace (for_subfiles env z (subfile :: rest))
               = t ++ trace (for_subfiles env z rest).
Proof.
  rewrite for_subfiles_cons.
  intros [H | (e & H & He)]; rewrite H; [| rewrite He]; cbn [result trace fst snd].
  - split; [reflexivity |]. eexists. reflexivity.
  - split; [reflexivity |].
    exists (trace (scan_subfile env z subfile)
            ++ [EvLogDebug (FailedToRead subfile e)]).
    now rewrite <- app_assoc.
Qed.

(** A positive entry ends the loop: what follows it is not looked at. *)
Lemma for_subfiles_stop (z : ZipFile) (pre post : list string) (subfile : string) :
  result (scan_subfile env z subfile) = Ok (Some true) ->
  for_subfiles env z (pre ++ subfile :: post)
  = for_subfiles env z (pre ++ [subfile]).
Proof.
  intro Hhit. induction pre as [| a pre IH]; cbn [app].
  - rewrite !for_subfiles_cons, Hhit. reflexivity.
  - rewrite !for_subfiles_cons, IH. reflexivity.
Qed.

(** The loop returns [True] exactly when some entry is positive and all
    entries before it are skipped. *)
Lemma for_subfiles_true (z : ZipFile) (names : list string) :
  result (for_subfiles env z names) = Ok (Some true) <->
  exists pre subfile post,
    names = pre ++ subfile :: post
    /\ Forall (skipped env z) pre
    /\ result (scan_subfile env z subfile) = Ok (Some true).
Proof.
  induction names as [| a rest IH].
  - split; [discriminate |].
    intros (pre & s & post & H & _). destruct pre; discriminate.
  - rewrite for_subfiles_cons.
    destruct (result (scan_subfile env z a)) as [[v |] | e] eqn:Ha;
      cbn [result snd].
    + assert (v = true) as ->.
      { destruct v; [reflexivity |].
        exfalso. now apply (scan_subfile_not_false z a). }
      split; [| reflexivity]. intros _.
      exists [], a, rest. repeat split; [constructor | exact Ha].
    + rewrite IH. split.
      * intros (pre & s & post & -> & Hpre & Hs).
        exists (a :: pre), s, post. repeat split; [| exact Hs].
        constructor; [now left | exact Hpre].
      * intros (pre & s & post & Heq & Hpre & Hs).
        destruct pre as [| a' pre]; cbn [app] in Heq; injection Heq as <- ->.
        -- congruence.
        -- inversion Hpre; subst. exists pre, s, post. auto.
    + destruct (is_Exception e) eqn:He; cbn [result snd].
      * rewrite IH. split.
        -- intros (pre & s & post & -> & Hpre & Hs).
           exists (a :: pre), s, post. repeat split; [| exact Hs].
           constructor; [| exact Hpre]. right. exists e. split; assumption.
        -- intros (pre & s & post & Heq & Hpre & Hs).
           destruct pre as [| a' pre]; cbn [app] in Heq; injection Heq as <- ->.
           ++ congruence.
           ++ inversion Hpre; subst. exists pre, s, post. auto.
      * split; [discriminate |].
        intros (pre & s & post & Heq & Hpre & Hs).
        destruct pre as [| a' pre]; cbn [app] in Heq; injection Heq as <- ->.
        -- congruence.
        -- inversion Hpre as [| x l Hsk Hrest]; subst.
           destruct Hsk as [Hsk | (e' & Hsk & He')]; congruence.
Qed.

End NestedScanner.

Section NestedScannerWhole.

Variable env : Env.
Variable path : string.

(** [scan_zip_for_macros] by the outcome of the probe, of opening the
    archive and of the loop. *)
Lemma scan_zip_for_macros_eq :
  scan_zip_for_macros env path
  = match zipfile_is_zipfile env path with
    | Raise e => ([EvIsZipfile path], Raise e)
    | Ok false => ([EvIsZipfile path], Ok false)
    | Ok true =>
        match zipfile_ZipFile env path with
        | Raise e =>
            if is_Exception e
            then ([EvIsZipfile path; EvZipFile path;
                   EvLogDebug (ErrorOpeningZip e)], Ok false)
            else ([EvIsZipfile path; EvZipFile path], Raise e)
        | Ok z =>
            let loop := for_subfiles env z (namelist z) in
            let tr := EvIsZipfile path :: EvZipFile path :: EvNamelist path
                      :: trace loop ++ [EvZipClose path] in
            match result loop with
            | Ok (Some v) => (tr, Ok v)
            | Ok None => (tr, Ok false)
            | Raise e =>
                if is_Exception e
                then (tr ++ [EvLogDebug (ErrorOpeningZip e)], Ok false)
                else (tr, Raise e)
            end
        end
    end.
Proof.
  unfold scan_zip_for_macros, with_ZipFile.
  destruct (zipfile_is_zipfile env path) as [[] | e0]; unfold_monad;
    try reflexivity.
  destruct (zipfile_ZipFile env path) as [z | e1]; cbn [fst snd app negb].
  - destruct (for_subfiles env z (namelist z)) as [t [[v |] | e2]];
      cbn [fst snd app].
    + now rewrite app_nil_r.
    + now rewrite app_nil_r.
    + destruct (is_Exception e2); cbn [fst snd app]; [| reflexivity].
      now rewrite app_nil_r.
  - destruct (is_Exception e1); reflexivity.
Qed.

Lemma scan_zip_for_macros_belongs :
  Forall (fun ev => belongs Nested ev = true)
    (trace (scan_zip_for_macros env path)).
Proof.
  rewrite scan_zip_for_macros_eq.
  destruct (zipfile_is_zipfile env path) as [[] | e0];
    [| repeat constructor | repeat constructor].
  destruct (zipfile_ZipFile env path) as [z | e1].
  - pose proof (for_subfiles_belongs env z (namelist z)) as Hl.
    assert (Htr : Forall (fun ev => belongs Nested ev = true)
                    (EvIsZipfile path :: EvZipFile path :: EvNamelist path
                     :: trace (for_subfiles env z (namelist z))
                     ++ [EvZipClose path])).
    { repeat (constructor; [reflexivity |]).
      apply Forall_app. split; [exact Hl | repeat constructor]. }
    cbv zeta.
    destruct (result (for_subfiles env z (namelist z))) as [[v |] | e2];
      cbn [trace fst]; try exact Htr.
    destruct (is_Exception e2); cbn [trace fst]; [| exact Htr].
    apply Forall_app. split; [exact Htr | repeat constructor].
  - destruct (is_Exception e1); repeat constructor.
Qed.

Lemma scan_zip_for_macros_head :
  exists tl, trace (scan_zip_for_macros env path) = EvIsZipfile path :: tl.
Proof.
  rewrite scan_zip_for_macros_eq.
  destruct (zipfile_is_zipfile env path) as [[] | e0];
    [| eexists; reflexivity | eexists; reflexivity].
  destruct (zipfile_ZipFile env path) as [z | e1].
  - cbv zeta.
    destruct (result (for_subfiles env z (namelist z))) as [[v |] | e2];
      try (eexists; reflexivity).
    destruct (is_Exception e2); eexists; reflexivity.
  - destruct (is_Exception e1); eexists; reflexivity.
Qed.

(** What the scanner lets through: an exception of the probe, which is
    called outside the [try], or something that is not an [Exception]. *)
Lemma scan_zip_for_macros_escape (e : exn) :
  result (scan_zip_for_macros env path) = Raise e ->
  zipfile_is_zipfile env path = Raise e \/ is_Exception e = false.
Proof.
  rewrite scan_zip_for_macros_eq.
  destruct (zipfile_is_zipfile env path) as [[] | e0]; cbn [result snd].
  - destruct (zipfile_ZipFile env path) as [z | e1].
    + cbv zeta.
      destruct (result (for_subfiles env z (namelist z))) as [[v |] | e2];
        cbn [result snd]; try discriminate.
      destruct (is_Exception e2) eqn:He; cbn [result snd]; [discriminate |].
      intro H. injection H as <-. now right.
    + destruct (is_Exception e1) eqn:He; cbn [result snd]; [discriminate |].
      intro H. injection H as <-. now right.
  - discriminate.
  - intro H. injection H as <-. now left.
Qed.

(** For an archive that opens, the scanner answers [True] exactly when
    the loop over the entries returned [True]. *)
Lemma scan_zip_for_macros_positive (z : ZipFile) :
  zipfile_is_zipfile env path = Ok true ->
  zipfile_ZipFile env path = Ok z ->
  (positive (scan_zip_for_macros env path) <->
   result (for_subfiles env z (namelist z)) = Ok (Some true)).
Proof.
  intros Hp Hz. unfold positive.
  rewrite scan_zip_for_macros_eq, Hp, Hz. cbv zeta.
  destruct (result (for_subfiles env z (namelist z))) as [[v |] | e2];
    cbn [result snd].
  - split; congruence.
  - split; discriminate.
  - destruct (is_Exception e2); cbn [result snd]; split; discriminate.
Qed.

End NestedScannerWhole.

(** ** Facts shared by the five strategies *)

Section AllStrategies.

Variable env : Env.
Variable path : string.

Lemma strategy_belongs (s : strategy) :
  Forall (fun ev => belongs s ev = true) (trace (run_strategy s env path)).
Proof.
  destruct s; cbn [run_strategy].
  - rewrite run_olevba_triage_eq. repeat constructor.
  - rewrite run_oledump_check_eq. repeat constructor.
  - apply check_excel97_macros_belongs.
  - apply run_vba_parser_belongs.
  - apply scan_zip_for_macros_belongs.
Qed.

(** Every strategy starts with an external call of its own. *)
Lemma strategy_head (s : strategy) :
  exists ev tl, trace (run_strategy s env path) = ev :: tl
                /\ owner ev = Some s.
Proof.
  destruct s; cbn [run_strategy].
  - rewrite run_olevba_triage_eq. do 2 eexists. split; reflexivity.
  - rewrite run_oledump_check_eq. do 2 eexists. split; reflexivity.
  - destruct (check_excel97_macros_head env path) as [tl ->].
    do 2 eexists. split; reflexivity.
  - destruct (run_vba_parser_head env path) as [tl ->].
    do 2 eexists. split; reflexivity.
  - destruct (scan_zip_for_macros_head env path) as [tl ->].
    do 2 eexists. split; reflexivity.
Qed.

(** An [Exception] leaves a strategy only when the ZIP probe raised it. *)
Lemma strategy_escape (s : strategy) (e : exn) :
  result (run_strategy s env path) = Raise e ->
  is_Exception e = true ->
  s = Nested /\ zipfile_is_zipfile env path = Raise e.
Proof.
  destruct s; cbn [run_strategy]; intros Hr He.
  - destruct (run_olevba_triage_returns env path) as [b Hb]. congruence.
  - apply run_oledump_check_escape in Hr. congruence.
  - destruct (check_excel97_macros_returns env path) as [b Hb]. congruence.
  - destruct (run_vba_parser_returns env path) as [b Hb]. congruence.
  - apply scan_zip_for_macros_escape in Hr. destruct Hr; [auto | congruence].
Qed.

(** Three strategies end in a bare [except:] and always return; whether
    all five return is a matter of the other two. *)
Lemma all_return_iff :
  all_return env path <->
  returns (run_oledump_check env path)
  /\ returns (scan_zip_for_macros env path).
Proof.
  split.
  - intro H. split; [apply (H StreamMarker) | apply (H Nested)].
  - intros [Hd Hz] s. destruct s; cbn [run_strategy].
    + apply run_olevba_triage_returns.
    + exact Hd.
    + apply check_excel97_macros_returns.
    + apply run_vba_parser_returns.
    + exact Hz.
Qed.

End AllStrategies.

(** ** Reading traces *)

Section Traces.

Lemma strategy_eqb_eq (a b : strategy) : strategy_eqb a b = true <-> a = b.
Proof.
  unfold strategy_eqb. rewrite Nat.eqb_eq.
  split; [| now intros ->]. destruct a, b; simpl; congruence.
Qed.

Lemma executed_app (t1 t2 : list event) :
  executed (t1 ++ t2) = executed t1 ++ executed t2.
Proof. apply flat_map_app. Qed.

Lemma printed_app (t1 t2 : list event) :
  printed (t1 ++ t2) = printed t1 ++ printed t2.
Proof. apply flat_map_app. Qed.

Lemma belongs_executed (s : strategy) (tr : list event) :
  Forall (fun ev => belongs s ev = true) tr ->
  Forall (eq s) (executed tr).
Proof.
  induction 1 as [| ev tr Hev _ IH]; [constructor |].
  change (executed (ev :: tr))
    with (match owner ev with Some s' => [s'] | None => [] end ++ executed tr).
  unfold belongs in Hev.
  destruct (owner ev) as [s' |]; cbn [app]; [| exact IH].
  apply strategy_eqb_eq in Hev. subst. now constructor.
Qed.

Lemma belongs_printed (s : strategy) (tr : list event) :
  Forall (fun ev => belongs s ev = true) tr -> printed tr = [].
Proof.
  induction 1 as [| ev tr Hev _ IH]; [reflexivity |].
  change (printed (ev :: tr))
    with (match ev with EvPrint l => [l] | _ => [] end ++ printed tr).
  rewrite IH. destruct ev; try reflexivity. discriminate Hev.
Qed.

Lemma belongs_not_archive (s : strategy) (tr : list event) :
  s <> Nested ->
  Forall (fun ev => belongs s ev = true) tr ->
  forallb (fun ev => negb (is_archive_read ev)) tr = true.
Proof.
  intro Hs. induction 1 as [| ev tr Hev _ IH]; [reflexivity |].
  cbn [forallb]. rewrite IH, andb_true_r.
  unfold belongs in Hev.
  destruct ev; try reflexivity; cbn in Hev;
    apply strategy_eqb_eq in Hev; congruence.
Qed.

Variable env : Env.
Variable path : string.

(** The calls of one strategy all belong to it, and there is one at least. *)
Lemma executed_strategy (s : strategy) :
  exists n, executed (trace (run_strategy s env path)) = repeat s (S n).
Proof.
  pose proof (belongs_executed s _ (strategy_belongs env path s)) as Hall.
  destruct (strategy_head env path s) as (ev & tl & Htr & Hown).
  rewrite Htr in *.
  change (executed (ev :: tl))
    with (match owner ev with Some s' => [s'] | None => [] end ++ executed tl)
    in *.
  rewrite Hown in *. cbn [app] in *.
  inversion Hall as [| x l _ Htl]; subst.
  exists (length (executed tl)). cbn [repeat]. f_equal.
  apply Forall_eq_repeat. revert Htl. apply Forall_impl. auto.
Qed.

Lemma in_executed_strategy (s s' : strategy) :
  In s' (executed (trace (run_strategy s env path))) <-> s' = s.
Proof.
  destruct (executed_strategy s) as [n ->]. split.
  - apply repeat_spec.
  - intros ->. now left.
Qed.

Lemma printed_strategy (s : strategy) :
  printed (trace (run_strategy s env path)) = [].
Proof. exact (belongs_printed s _ (strategy_belongs env path s)). Qed.

End Traces.

(** ** The orchestrator *)

Section Orchestrator.

Variable env : Env.
Variable path : string.

Lemma main_eq :
  main env path
  = match result (has_macros env path) with
    | Ok true =>
        (trace (has_macros env path) ++ [EvPrint "MACROS_PRESENT"], Ok tt)
    | Ok false =>
        (trace (has_macros env path) ++ [EvPrint "NO_MACROS"], Ok tt)
    | Raise e => (trace (has_macros env path), Raise e)
    end.
Proof.
  unfold main.
  destruct (result (has_macros env path)) as [[] | e] eqn:H.
  - now rewrite (bind_Ok _ _ _ H).
  - now rewrite (bind_Ok _ _ _ H).
  - now rewrite (bind_Raise _ _ _ H).
Qed.

Lemma executed_main :
  executed (trace (main env path)) = executed (trace (has_macros env path)).
Proof.
  rewrite main_eq.
  destruct (result (has_macros env path)) as [[] | e]; cbn [trace fst];
    rewrite ?executed_app; cbn; now rewrite ?app_nil_r.
Qed.

Lemma trace_has_macros :
  trace (has_macros env path)
  = flat_map (fun s => trace (run_strategy s env path))
      (reached env path fixed_order).
Proof.
  rewrite has_macros_or_chain. apply or_chain_trace. discriminate.
Qed.

Lemma executed_flat_map (l : list strategy) :
  executed (flat_map (fun s => trace (run_strategy s env path)) l)
  = flat_map (fun s => executed (trace (run_strategy s env path))) l.
Proof.
  induction l as [| s l IH]; [reflexivity |].
  cbn [flat_map]. now rewrite executed_app, IH.
Qed.

Lemma in_executed_main (s : strategy) :
  In s (executed (trace (main env path)))
  <-> In s (reached env path fixed_order).
Proof.
  rewrite executed_main, trace_has_macros, executed_flat_map, in_flat_map.
  split.
  - intros (x & Hx & Hin). apply in_executed_strategy in Hin. now subst.
  - intro H. exists s. split; [exact H |]. now apply in_executed_strategy.
Qed.

Lemma printed_has_macros : printed (trace (has_macros env path)) = [].
Proof.
  rewrite trace_has_macros.
  induction (reached env path fixed_order) as [| s l IH]; [reflexivity |].
  cbn [flat_map]. now rewrite printed_app, printed_strategy, IH.
Qed.

(** How far the chain gets: through the strategies that returned
    [False], up to the first one that did anything else. *)
Lemma reached_shape :
  exists k,
    k < 5
    /\ reached env path fixed_order = firstn (S k) fixed_order
    /\ (forall s, rank s < k -> result (run_strategy s env path) = Ok false)
    /\ (S k < 5 -> forall s, rank s = k ->
        result (run_strategy s env path) <> Ok false).
Proof.
  unfold fixed_order. cbn [reached].
  destruct (result (run_strategy Triage env path)) as [[] | e0] eqn:H0.
  1, 3: exists 0; repeat split; try lia;
    intros _ s Hs; destruct s; try discriminate Hs; congruence.
  destruct (result (run_strategy StreamMarker env path)) as [[] | e1] eqn:H1.
  1, 3: exists 1; repeat split; try lia;
    [ intros s Hs; destruct s; cbn in Hs; try lia; assumption
    | intros _ s Hs; destruct s; try discriminate Hs; congruence ].
  destruct (result (run_strategy Structural env path)) as [[] | e2] eqn:H2.
  1, 3: exists 2; repeat split; try lia;
    [ intros s Hs; destruct s; cbn in Hs; try lia; assumption
    | intros _ s Hs; destruct s; try discriminate Hs; congruence ].
  destruct (result (run_strategy Parser env path)) as [[] | e3] eqn:H3.
  1, 3: exists 3; repeat split; try lia;
    [ intros s Hs; destruct s; cbn in Hs; try lia; assumption
    | intros _ s Hs; destruct s; try discriminate Hs; congruence ].
  exists 4. repeat split; try lia.
  - destruct (result (run_strategy Nested env path)) as [[] | e4]; reflexivity.
  - intros s Hs; destruct s; cbn in Hs; try lia; assumption.
Qed.

Lemma in_firstn_fixed_order (k : nat) (s : strategy) :
  In s (firstn k fixed_order) <-> rank s < k.
Proof.
  unfold fixed_order.
  do 5 (destruct k as [| k]; [destruct s; cbn; intuition (try lia; try discriminate) |]).
  destruct s; cbn; intuition lia.
Qed.

Lemma sorted_blocks (f : strategy -> list strategy) (l : list strategy) :
  (forall s, Forall (eq s) (f s)) ->
  StronglySorted (fun a b => rank a < rank b) l ->
  in_fixed_order (flat_map f l).
Proof.
  intros Hf. unfold in_fixed_order.
  induction 1 as [| a l Hl IH Ha]; [constructor |].
  cbn [flat_map].
  assert (Htail : Forall (fun b => rank a <= rank b) (flat_map f l)).
  { apply Forall_flat_map. revert Ha. apply Forall_impl. intros b Hab.
    generalize (Hf b). apply Forall_impl. intros c <-. lia. }
  pose proof (Hf a) as Hfa.
  induction Hfa as [| x xs Hx Hxs IHxs]; [exact IH |].
  subst x. cbn [app]. constructor; [exact IHxs |].
  apply Forall_app. split; [| exact Htail].
  revert Hxs. apply Forall_impl. intros c <-. lia.
Qed.

Lemma firstn_fixed_order_sorted (k : nat) :
  StronglySorted (fun a b => rank a < rank b) (firstn k fixed_order).
Proof.
  unfold fixed_order.
  do 6 (destruct k as [| k]; [cbn; repeat constructor |]).
  cbn. repeat constructor.
Qed.

End Orchestrator.

(** ** What the handlers do not cover, and what [with] does *)

Section Boundaries.

Variable env : Env.
Variable path : string.

(** [zipfile.is_zipfile] is called before the [try]: what it raises
    leaves [scan_zip_for_macros]. *)
Lemma probe_error_leaves_scanner (e : exn) :
  zipfile_is_zipfile env path = Raise e ->
  scan_zip_for_macros env path = ([EvIsZipfile path], Raise e).
Proof. intro H. now rewrite scan_zip_for_macros_eq, H. Qed.

(** [except Exception] in [run_oledump_check] does not catch an
    interrupt that arrives while the tool runs; the bare [except] of
    [run_olevba_triage] does. *)
Lemma interrupt_leaves_stream_marker :
  subprocess_run env ["oledump.py"; path] = Raise KeyboardInterrupt ->
  result (run_oledump_check env path) = Raise KeyboardInterrupt.
Proof. intro H. now rewrite run_oledump_check_eq, H. Qed.

Lemma interrupt_caught_by_triage :
  subprocess_run env ["olevba"; "-t"; path] = Raise KeyboardInterrupt ->
  result (run_olevba_triage env path) = Ok false.
Proof. intro H. now rewrite run_olevba_triage_eq, H. Qed.

(** The archive opened by the [with] statement is closed however the
    block is left. *)
Lemma archive_released (z : ZipFile) :
  zipfile_is_zipfile env path = Ok true ->
  zipfile_ZipFile env path = Ok z ->
  released (HArchive path) (trace (scan_zip_for_macros env path)) = true.
Proof.
  intros Hp Hz. rewrite scan_zip_for_macros_eq, Hp, Hz. cbv zeta.
  assert (Hrel : forall t u,
             released (HArchive path) (t ++ EvZipClose path :: u) = true).
  { intros t u. unfold released. rewrite existsb_app. cbn.
    rewrite String.eqb_refl. now rewrite orb_true_r. }
  destruct (result (for_subfiles env z (namelist z))) as [[v |] | e];
    cbn [trace fst].
  - apply (Hrel (_ :: _ :: _ :: _) []).
  - apply (Hrel (_ :: _ :: _ :: _) []).
  - destruct (is_Exception e); cbn [trace fst].
    + change (EvIsZipfile path :: EvZipFile path :: EvNamelist path
              :: trace (for_subfiles env z (namelist z)) ++ [EvZipClose path])
        with ((EvIsZipfile path :: EvZipFile path :: EvNamelist path
               :: trace (for_subfiles env z (namelist z)))
              ++ [EvZipClose path]).
      rewrite <- app_assoc. apply Hrel.
    + apply (Hrel (_ :: _ :: _ :: _) []).
Qed.

(** The OLE handle opened by [check_excel97_macros] is never released. *)
Lemma ole_handle_not_released :
  released (HOle path) (trace (check_excel97_macros env path)) = false.
Proof.
  unfold check_excel97_macros. unfold_monad.
  split_outcomes; reflexivity.
Qed.

(** The triage adapter reads the captured standard output only. *)
Lemma run_olevba_triage_ignores_stderr (r r' : CompletedProcess) (env' : Env) :
  subprocess_run env ["olevba"; "-t"; path] = Ok r ->
  subprocess_run env' ["olevba"; "-t"; path] = Ok r' ->
  stdout r = stdout r' ->
  run_olevba_triage env path = run_olevba_triage env' path.
Proof.
  intros H H' Hout. now rewrite !run_olevba_triage_eq, H, H', Hout.
Qed.

End Boundaries.

(** ** The sample environments, run *)

Section SampleRuns.

Import Samples.

Example run_bare :
  main env_bare "missing.doc"
  = ([EvSubprocess ["olevba"; "-t"; "missing.doc"];
      EvSubprocess ["oledump.py"; "missing.doc"];
      EvIsOleFile "missing.doc";
      EvVBAParser (FromPath "missing.doc");
      EvIsZipfile "missing.doc";
      EvPrint "NO_MACROS"], Ok tt).
Proof. reflexivity. Qed.

Example run_excel97 :
  printed (trace (main env_excel97 "book.xls")) = ["MACROS_PRESENT"].
Proof. reflexivity. Qed.

Example run_tools_report :
  main env_tools_report "invoice.doc"
  = ([EvSubprocess ["olevba"; "-t"; "invoice.doc"];
      EvPrint "MACROS_PRESENT"], Ok tt).
Proof. reflexivity. Qed.

Example run_oledump_listing :
  map PyStr.split (PyStr.splitlines oledump_listing)
  = [["1:"; "114"; "'\x01CompObj'"];
     ["7:"; "M"; "1562"; "'Macros/VBA/ThisDocument'"]].
Proof. reflexivity. Qed.

Example run_package :
  logged (trace (main env_package "report.docm"))
  = [FailedToRead "word/broken.bin" BadZipFile;
     OleFileDetected "word/vbaProject.bin"]
  /\ printed (trace (main env_package "report.docm")) = ["MACROS_PRESENT"].
Proof. split; reflexivity. Qed.

Example run_truncated_zip :
  logged (trace (main env_truncated_zip "cut.docm"))
  = [ErrorOpeningZip BadZipFile]
  /\ printed (trace (main env_truncated_zip "cut.docm")) = ["NO_MACROS"].
Proof. split; reflexivity. Qed.

Example splitlines_crlf :
  PyStr.splitlines
    (String "a" (String (ascii_of_nat 13) (String (ascii_of_nat 10)
       (String (ascii_of_nat 10) (String "b" (String (ascii_of_nat 10) ""))))))
  = ["a"; ""; "b"].
Proof. reflexivity. Qed.

End SampleRuns.

(** ** The independent reading agrees with the string functions *)

Section ReadingFacts.

Import PyStr Reading.

Local Notation "a +++ b" := (String.append a b)
  (at level 60, right associativity).

Local Arguments white : simpl never.
Local Arguments line_break : simpl never.
Local Arguments isspace : simpl never.
Local Arguments is_linebreak : simpl never.
Local Arguments is_CR : simpl never.
Local Arguments is_LF : simpl never.

Lemma append_assoc_s (a b c : string) : (a +++ b) +++ c = a +++ (b +++ c).
Proof. induction a as [| x a IH]; simpl; [reflexivity | now rewrite IH]. Qed.

Lemma append_nil_r_s (a : string) : a +++ EmptyString = a.
Proof. induction a as [| x a IH]; simpl; [reflexivity | now rewrite IH]. Qed.

Lemma white_isspace (c : ascii) : white c = isspace c.
Proof. destruct c as [[] [] [] [] [] [] [] []]; reflexivity. Qed.

Lemma line_break_is_linebreak (c : ascii) : line_break c = is_linebreak c.
Proof. destruct c as [[] [] [] [] [] [] [] []]; reflexivity. Qed.

Lemma is_LF_facts (c : ascii) :
  is_LF c = true -> is_linebreak c = true /\ is_CR c = false.
Proof.
  destruct c as [[] [] [] [] [] [] [] []]; vm_compute; intro H;
    solve [discriminate H | split; reflexivity].
Qed.

(** *** Tokens *)

Lemma split_from_blank (ws s : string) :
  blank ws = true ->
  split_from EmptyString (ws +++ s) = split_from EmptyString s.
Proof.
  unfold blank. induction ws as [| c ws IH]; simpl; [reflexivity |].
  rewrite white_isspace. intro H. apply andb_true_iff in H as [Hc Hws].
  rewrite Hc. cbn [is_empty]. now apply IH.
Qed.

Lemma split_from_letters (w s cur : string) :
  every (fun c => negb (white c)) w = true ->
  split_from cur (w +++ s) = split_from (cur +++ w) s.
Proof.
  revert cur. induction w as [| c w IH]; intros cur; simpl.
  - now rewrite append_nil_r_s.
  - rewrite white_isspace. intro H. apply andb_true_iff in H as [Hc Hw].
    apply negb_true_iff in Hc. rewrite Hc.
    rewrite IH by exact Hw. unfold snoc. now rewrite append_assoc_s.
Qed.

Lemma peel_blank (s : string) :
  exists lead s1,
    s = lead +++ s1 /\ blank lead = true /\ starts_with white s1 = false.
Proof.
  induction s as [| c s (lead & s1 & Hs & Hl & Hs1)].
  - exists EmptyString, EmptyString. auto.
  - destruct (white c) eqn:Hc.
    + exists (String c lead), s1. unfold blank in *. simpl.
      rewrite Hc, <- Hs. auto.
    + exists EmptyString, (String c s). simpl. auto.
Qed.

Lemma peel_letters (s : string) :
  exists w rest,
    s = w +++ rest
    /\ every (fun c => negb (white c)) w = true
    /\ (rest = EmptyString \/ starts_with white rest = true).
Proof.
  induction s as [| c s (w & rest & Hs & Hw & Hr)].
  - exists EmptyString, EmptyString. auto.
  - destruct (white c) eqn:Hc.
    + exists EmptyString, (String c s). simpl. auto.
    + exists (String c w), rest. simpl. rewrite Hc, <- Hs. auto.
Qed.

Lemma word_letters (w : string) :
  word w = true <->
  w <> EmptyString /\ every (fun c => negb (white c)) w = true.
Proof.
  destruct w as [| c w]; simpl.
  - split; [discriminate | intros [H _]; congruence].
  - split; [intro H; split; [discriminate | exact H] | intros [_ H]; exact H].
Qed.

(** After a token comes the end of the string or white space; either
    way the token is given out and splitting goes on behind it. *)
Lemma split_from_token (w rest : string) :
  word w = true ->
  rest = EmptyString \/ starts_with white rest = true ->
  split_from w rest = w :: split_from EmptyString rest.
Proof.
  intros Hw Hrest.
  assert (He : is_empty w = false) by (destruct w; [discriminate | reflexivity]).
  destruct rest as [| c r]; simpl.
  - now rewrite He.
  - destruct Hrest as [H | H]; [discriminate |].
    simpl in H. rewrite white_isspace in H. now rewrite H, He.
Qed.

(** A string is blank and has no token, or it is white space, a first
    token and a rest whose tokens are the remaining ones. *)
Lemma split_uncons (s : string) :
  (blank s = true /\ split s = [])
  \/ (exists lead w rest,
        s = lead +++ (w +++ rest)
        /\ blank lead = true
        /\ word w = true
        /\ (rest = EmptyString \/ starts_with white rest = true)
        /\ split s = w :: split rest).
Proof.
  destruct (peel_blank s) as (lead & s1 & Hs & Hlead & Hs1).
  destruct (peel_letters s1) as (w & rest & Hs1' & Hw & Hrest).
  destruct w as [| c w].
  - left. simpl in Hs1'. subst s1.
    destruct Hrest as [-> | Hr]; [| congruence].
    rewrite append_nil_r_s in Hs. subst s. split; [exact Hlead |].
    unfold split. rewrite <- (append_nil_r_s lead).
    now rewrite split_from_blank.
  - right. exists lead, (String c w), rest.
    assert (Hword : word (String c w) = true) by exact Hw.
    repeat split; try assumption; [now subst |].
    unfold split. rewrite Hs, Hs1', split_from_blank by exact Hlead.
    rewrite split_from_letters by exact Hw. cbn [String.append].
    now apply split_from_token.
Qed.

Lemma word_not_white_start (w rest : string) :
  word w = true -> starts_with white (w +++ rest) = false.
Proof.
  destruct w as [| c w]; [discriminate |]. simpl.
  intro H. apply andb_true_iff in H as [H _]. now apply negb_true_iff.
Qed.

(** The second element of [split line] is the second token of the line. *)
Lemma second_token_iff (line tok : string) :
  nth_error (split line) 1 = Some tok <-> second_token line tok.
Proof.
  split.
  - intro Hnth.
    destruct (split_uncons line)
      as [[_ H] | (lead & first & rest1 & Hl & Hlead & Hfirst & Hr1 & Hsp)];
      [rewrite H in Hnth; discriminate |].
    rewrite Hsp in Hnth. cbn [nth_error] in Hnth.
    destruct (split_uncons rest1)
      as [[_ H] | (gap & tok' & rest & Hr & Hgap & Htok & Hrest & Hsp')];
      [rewrite H in Hnth; discriminate |].
    rewrite Hsp' in Hnth. injection Hnth as <-.
    exists lead, first, gap, rest. repeat split; try assumption.
    + now rewrite Hl, Hr.
    + intros ->. simpl in Hr. subst rest1.
      destruct Hr1 as [H | H].
      * destruct tok'; discriminate.
      * now rewrite word_not_white_start in H.
  - intros (lead & first & gap & rest & Hl & Hlead & Hfirst & Hne & Hgap
            & Htok & Hrest).
    subst line. unfold split. rewrite split_from_blank by exact Hlead.
    apply word_letters in Hfirst as Hf. destruct Hf as [_ Hf].
    rewrite split_from_letters by exact Hf. cbn [String.append].
    destruct gap as [| c gap]; [congruence |].
    unfold blank in Hgap. simpl in Hgap.
    apply andb_true_iff in Hgap as [Hc Hgap].
    rewrite split_from_token; [| exact Hfirst | right; exact Hc].
    cbn [nth_error].
    change (String c gap +++ tok +++ rest)
      with (String c EmptyString +++ (gap +++ tok +++ rest)).
    rewrite split_from_blank by (unfold blank; simpl; now rewrite Hc).
    rewrite split_from_blank by exact Hgap.
    apply word_letters in Htok as Ht. destruct Ht as [_ Ht].
    rewrite split_from_letters by exact Ht. cbn [String.append].
    now rewrite split_from_token.
Qed.

(** *** Lines *)

Lemma ends_with_cons (p : ascii -> bool) (c : ascii) (s : string) :
  s <> EmptyString -> ends_with p (String c s) = ends_with p s.
Proof. destruct s; [congruence | reflexivity]. Qed.

Lemma ends_with_not_empty (p : ascii -> bool) (s : string) :
  ends_with p s = true -> s <> EmptyString.
Proof. destruct s; [discriminate | discriminate]. Qed.

Lemma splitlines_from_letter (cur : string) (c : ascii) (s : string) :
  is_linebreak c = false ->
  splitlines_from cur (String c s) = splitlines_from (snoc cur c) s.
Proof. intro H. cbn [splitlines_from]. now rewrite H. Qed.

(** At a boundary the line read so far is given out; what follows are
    the lines of the rest, but for an empty line between CR and LF. *)
Lemma splitlines_from_break (cur : string) (c : ascii) (s : string) :
  is_linebreak c = true ->
  exists later,
    splitlines_from cur (String c s) = cur :: later
    /\ (forall line, In line later ->
                     In line (splitlines_from EmptyString s))
    /\ (forall line, line <> EmptyString ->
                     In line (splitlines_from EmptyString s) ->
                     In line later).
Proof.
  intro Hc. cbn [splitlines_from]. rewrite Hc.
  destruct s as [| d s'']; [eexists; split; [reflexivity | auto] |].
  destruct (is_CR c && is_LF d) eqn:Hcrlf.
  - apply andb_true_iff in Hcrlf as [_ Hd].
    destruct (is_LF_facts d Hd) as [Hbreak Hcr].
    exists (splitlines_from EmptyString s''). split; [reflexivity |].
    assert (Heq : splitlines_from EmptyString (String d s'')
                  = EmptyString :: splitlines_from EmptyString s'').
    { cbn [splitlines_from]. rewrite Hbreak.
      destruct s''; [reflexivity |]. now rewrite Hcr. }
    rewrite Heq. split.
    + intros line H. now right.
    + intros line Hne [H | H]; [congruence | exact H].
  - eexists. split; [reflexivity | auto].
Qed.

Lemma lines_sound (s cur line : string) :
  In line (splitlines_from cur s) ->
  (exists seg after,
      s = seg +++ after /\ no_break seg = true /\ line_ends after
      /\ line = cur +++ seg)
  \/ (exists before l after,
        s = before +++ (l +++ after)
        /\ ends_with line_break before = true
        /\ no_break l = true /\ line_ends after /\ line = l).
Proof.
  revert cur. induction s as [| c s IH]; intros cur Hin.
  - left. exists EmptyString, EmptyString. cbn in Hin.
    destruct (is_empty cur); [destruct Hin |].
    destruct Hin as [<- | []].
    repeat split; [now left | now rewrite append_nil_r_s].
  - destruct (is_linebreak c) eqn:Hc.
    + destruct (splitlines_from_break cur c s Hc) as (later & Heq & Hlater & _).
      rewrite Heq in Hin. destruct Hin as [<- | Hin].
      * left. exists EmptyString, (String c s).
        repeat split; [| now rewrite append_nil_r_s].
        right. simpl. now rewrite line_break_is_linebreak.
      * right. apply Hlater, IH in Hin.
        destruct Hin as [(seg & after & Hs & Hseg & Hafter & Hline)
                        | (before & l & after & Hs & Hb & Hl & Hafter & Hline)].
        -- exists (String c EmptyString), seg, after. simpl in Hline.
           repeat split; try assumption; [now rewrite Hs |].
           simpl. now rewrite line_break_is_linebreak.
        -- exists (String c before), l, after.
           repeat split; try assumption; [simpl; now rewrite Hs |].
           rewrite ends_with_cons; [exact Hb |].
           now apply (ends_with_not_empty line_break).
    + rewrite splitlines_from_letter in Hin by exact Hc.
      apply IH in Hin.
      destruct Hin as [(seg & after & Hs & Hseg & Hafter & Hline)
                      | (before & l & after & Hs & Hb & Hl & Hafter & Hline)].
      * left. exists (String c seg), after.
        repeat split; try assumption.
        -- simpl. now rewrite Hs.
        -- unfold no_break in *. simpl.
           now rewrite line_break_is_linebreak, Hc, Hseg.
        -- rewrite Hline. unfold snoc. now rewrite append_assoc_s.
      * right. exists (String c before), l, after.
        repeat split; try assumption; [simpl; now rewrite Hs |].
        rewrite ends_with_cons; [exact Hb |].
        now apply (ends_with_not_empty line_break).
Qed.

Lemma lines_complete (s cur line : string) :
  line <> EmptyString ->
  (exists seg after,
      s = seg +++ after /\ no_break seg = true /\ line_ends after
      /\ line = cur +++ seg)
  \/ (exists before l after,
        s = before +++ (l +++ after)
        /\ ends_with line_break before = true
        /\ no_break l = true /\ line_ends after /\ line = l) ->
  In line (splitlines_from cur s).
Proof.
  intro Hne. revert cur. induction s as [| c s IH]; intros cur H.
  - destruct H as [(seg & after & Hs & _ & _ & Hline)
                  | (before & l & after & Hs & Hb & _)].
    + destruct seg; [| discriminate Hs]. rewrite append_nil_r_s in Hline.
      subst cur. cbn. destruct line; [congruence |]. now left.
    + destruct before; [discriminate Hb | discriminate Hs].
  - destruct (is_linebreak c) eqn:Hc.
    + destruct (splitlines_from_break cur c s Hc) as (later & Heq & _ & Hlater).
      rewrite Heq.
      destruct H as [(seg & after & Hs & Hseg & _ & Hline)
                    | (before & l & after & Hs & Hb & Hl & Hafter & Hline)].
      * destruct seg as [| c' seg].
        -- rewrite append_nil_r_s in Hline. left. now symmetry.
        -- exfalso. simpl in Hs. injection Hs as <- _.
           unfold no_break in Hseg. simpl in Hseg.
           rewrite line_break_is_linebreak, Hc in Hseg. discriminate Hseg.
      * right. apply Hlater; [exact Hne |]. apply IH.
        destruct before as [| c' before]; [discriminate Hb |].
        simpl in Hs. injection Hs as _ Hs.
        destruct before as [| c'' before].
        -- left. exists l, after. simpl in Hs. auto.
        -- right. exists (String c'' before), l, after.
           repeat split; try assumption.
    + rewrite splitlines_from_letter by exact Hc. apply IH.
      destruct H as [(seg & after & Hs & Hseg & Hafter & Hline)
                    | (before & l & after & Hs & Hb & Hl & Hafter & Hline)].
      * destruct seg as [| c' seg].
        -- exfalso. simpl in Hs. subst after.
           destruct Hafter as [H | H]; [discriminate H |].
           simpl in H. rewrite line_break_is_linebreak, Hc in H.
           discriminate H.
        -- left. simpl in Hs. injection Hs as <- Hs.
           exists seg, after. unfold no_break in *. simpl in Hseg.
           apply andb_true_iff in Hseg as [_ Hseg].
           repeat split; try assumption.
           rewrite Hline. unfold snoc. now rewrite append_assoc_s.
      * right. destruct before as [| c' before]; [discriminate Hb |].
        simpl in Hs. injection Hs as <- Hs.
        destruct before as [| c'' before].
        -- simpl in Hb. rewrite line_break_is_linebreak, Hc in Hb.
           discriminate Hb.
        -- exists (String c'' before), l, after.
           repeat split; try assumption.
Qed.

Lemma output_line_sound (out line : string) :
  In line (splitlines out) -> output_line out line.
Proof.
  intro H. apply lines_sound in H.
  destruct H as [(seg & after & Hs & Hseg & Hafter & Hline)
                | (before & l & after & Hs & Hb & Hl & Hafter & Hline)].
  - simpl in Hline. subst line. exists EmptyString, after. simpl. auto.
  - subst line. exists before, after. auto.
Qed.

Lemma output_line_complete (out line : string) :
  line <> EmptyString -> output_line out line -> In line (splitlines out).
Proof.
  intros Hne (before & after & Hs & Hl & Hb & Ha).
  apply lines_complete; [exact Hne |].
  destruct Hb as [-> | Hb].
  - left. exists line, after. simpl in Hs. auto.
  - right. exists before, line, after. auto.
Qed.

Lemma second_token_not_empty (line tok : string) :
  second_token line tok -> line <> EmptyString.
Proof.
  intros (lead & first & gap & rest & Hl & _ & Hfirst & _) ->.
  destruct lead; [| discriminate Hl]. simpl in Hl.
  destruct first; [discriminate Hfirst | discriminate Hl].
Qed.

(** The generator of [run_oledump_check] finds a marker exactly when
    some line of the output has "m" or "M" as its second token. *)
Lemma any_marker_reading (out : string) :
  any_marker (splitlines out) = Ok true <->
  exists line tok,
    output_line out line /\ second_token line tok /\ is_marker tok.
Proof.
  rewrite any_marker_true. unfold marker_line, is_marker. split.
  - intros (line & Hin & tok & Hnth & Hm).
    exists line, tok. repeat split.
    + now apply output_line_sound.
    + now apply second_token_iff.
    + now apply ci_equal_m.
  - intros (line & tok & Hline & Htok & Hm).
    exists line. split.
    + apply output_line_complete; [| exact Hline].
      now apply (second_token_not_empty line tok).
    + exists tok. split; [now apply second_token_iff | now apply ci_equal_m].
Qed.

(** A line without a second token is passed over. *)
Lemma any_marker_no_second_token (line : string) (rest : list string) :
  (forall tok, ~ second_token line tok) ->
  any_marker (line :: rest) = any_marker rest.
Proof.
  intro H. apply any_marker_short. unfold short_line.
  destruct (nth_error (split line) 1) as [tok |] eqn:Hnth.
  - exfalso. apply (H tok). now apply second_token_iff.
  - apply nth_error_None in Hnth. lia.
Qed.

(** *** Letter case *)

Lemma nat_of_ascii_inj (a b : ascii) :
  nat_of_ascii a = nat_of_ascii b -> a = b.
Proof.
  intro H. rewrite <- (ascii_nat_embedding a), <- (ascii_nat_embedding b).
  now rewrite H.
Qed.

Lemma lower_char_same_letter (c d : ascii) :
  (97 <=? nat_of_ascii d) && (nat_of_ascii d <=? 122) = true ->
  (lower_char c = d <-> same_letter c d = true).
Proof.
  intro Hd. apply andb_true_iff in Hd as [Hd1 Hd2].
  apply Nat.leb_le in Hd1. apply Nat.leb_le in Hd2.
  pose proof (nat_ascii_bounded c) as Hc.
  unfold lower_char, same_letter, in_range.
  rewrite orb_true_iff, !andb_true_iff, !Nat.leb_le, Nat.eqb_eq, Ascii.eqb_eq.
  destruct ((65 <=? nat_of_ascii c) && (nat_of_ascii c <=? 90)
            || (192 <=? nat_of_ascii c) && (nat_of_ascii c <=? 222)
               && negb (nat_of_ascii c =? 215)) eqn:Hcap.
  - assert (Hrange : 65 <= nat_of_ascii c <= 90
                     \/ 192 <= nat_of_ascii c <= 222).
    { apply orb_true_iff in Hcap as [H | H].
      - apply andb_true_iff in H as [H1 H2].
        apply Nat.leb_le in H1. apply Nat.leb_le in H2. lia.
      - apply andb_true_iff in H as [H _].
        apply andb_true_iff in H as [H1 H2].
        apply Nat.leb_le in H1. apply Nat.leb_le in H2. lia. }
    split.
    + intro H. apply (f_equal nat_of_ascii) in H.
      rewrite nat_ascii_embedding in H by lia. right. lia.
    + intros [-> | H]; [lia |].
      apply nat_of_ascii_inj. rewrite nat_ascii_embedding by lia. lia.
  - split; [auto |]. intros [H | H]; [exact H |]. exfalso.
    assert (Hcap' : (65 <=? nat_of_ascii c) && (nat_of_ascii c <=? 90) = true).
    { apply andb_true_iff. split; apply Nat.leb_le; lia. }
    rewrite Hcap' in Hcap. discriminate Hcap.
Qed.

Lemma lower_matches (mid k : string) :
  lower_letters k = true ->
  (lower mid = k <-> matches_ignoring_case mid k = true).
Proof.
  revert k. induction mid as [| c mid IH]; intros [| d k] Hk; simpl.
  - tauto.
  - split; discriminate.
  - split; discriminate.
  - unfold lower_letters in Hk. simpl in Hk.
    apply andb_true_iff in Hk as [Hd Hk].
    rewrite andb_true_iff, <- (lower_char_same_letter c d Hd), <- (IH k Hk).
    split.
    + intro H. injection H as H1 H2. auto.
    + intros [-> ->]. reflexivity.
Qed.

Lemma keyword_lower_letters (k : string) :
  In k keywords -> lower_letters k = true.
Proof.
  unfold keywords. simpl. intros [<- | [<- | [<- | []]]]; reflexivity.
Qed.

Lemma found_ignoring_case_iff (k s : string) :
  In k keywords -> (found_ignoring_case k s <-> ci_occurs k s).
Proof.
  intro Hk. unfold found_ignoring_case, ci_occurs, ci_equal.
  rewrite (keyword_lower k Hk).
  split; intros (pre & mid & post & Hs & Hm); exists pre, mid, post;
    (split; [exact Hs |]);
    now apply (lower_matches mid k (keyword_lower_letters k Hk)).
Qed.

(** [run_olevba_triage] finds a keyword in the lowered output exactly
    when the output holds a keyword up to letter case. *)
Lemma keyword_hit_reading (out : string) :
  keyword_hit (lower out) = true <->
  exists k, In k keywords /\ found_ignoring_case k out.
Proof.
  rewrite keyword_hit_lower. split; intros (k & Hk & H); exists k;
    (split; [exact Hk |]); now apply (found_ignoring_case_iff k out Hk).
Qed.

End ReadingFacts.

(* ===================================================================== *)
(** * Part III: the claims *)
(* ===================================================================== *)

Section Verdict.

Variable env : Env.
Variable path : string.


(** C2.  The external calls of a scan come strategy by strategy in the
    order triage, stream marker, structural check, parser, nested
    scanner, starting with the triage tool; a strategy that returns
    [True] is the last one executed; after a strategy that returns
    [False] the next one is executed; and when the triage adapter is
    positive the nested scanner is not executed and no archive is read. *)
Theorem fixed_order_first_positive_halts :
  let ex := executed (trace (main env path)) in
  in_fixed_order ex
  /\ In Triage ex
  /\ (forall s s', In s ex -> positive (run_strategy s env path) ->
                   In s' ex -> rank s' <= rank s)
  /\ (forall s s', In s ex -> result (run_strategy s env path) = Ok false ->
                   rank s' = S (rank s) -> In s' ex)
  /\ (positive (run_olevba_triage env path) ->
      ~ In Nested ex
      /\ forallb (fun ev => negb (is_archive_read ev)) (trace (main env path))
         = true).
Proof.
  cbv zeta.
  destruct (reached_shape env path) as (k & Hk & Hreach & Hbefore & Hlast).
  assert (Hin : forall s, In s (executed (trace (main env path)))
                          <-> rank s <= k).
  { intro s. rewrite in_executed_main, Hreach, in_firstn_fixed_order. lia. }
  split; [| split; [| split; [| split]]].
  - rewrite executed_main, trace_has_macros, executed_flat_map, Hreach.
    apply sorted_blocks; [| apply firstn_fixed_order_sorted].
    intro s. apply belongs_executed, strategy_belongs.
  - apply Hin. simpl. lia.
  - intros s s' Hs Hpos Hs'. apply Hin in Hs. apply Hin in Hs'.
    destruct (Nat.eq_dec (rank s) k) as [-> | Hne]; [exact Hs' |].
    assert (Hf : result (run_strategy s env path) = Ok false)
      by (apply Hbefore; lia).
    unfold positive in Hpos. congruence.
  - intros s s' Hs Hfalse Hnext. apply Hin in Hs. apply Hin.
    destruct (Nat.eq_dec (rank s) k) as [Heq | Hne]; [| lia].
    assert (S k < 5) by (destruct s'; simpl in Hnext; lia).
    exfalso. apply (Hlast H s Heq). exact Hfalse.
  - intro Hpos.
    assert (k = 0) as ->.
    { destruct k as [| k]; [reflexivity |].
      assert (Hf : result (run_strategy Triage env path) = Ok false)
        by (apply Hbefore; simpl; lia).
      unfold positive in Hpos. cbn [run_strategy] in Hf. congruence. }
    split.
    + rewrite Hin. simpl. lia.
    + rewrite main_eq, trace_has_macros, Hreach.
      cbn [firstn fixed_order flat_map run_strategy]. rewrite app_nil_r.
      rewrite has_macros_or_chain.
      assert (Htr : forallb (fun ev => negb (is_archive_read ev))
                      (trace (run_olevba_triage env path)) = true).
      { apply (belongs_not_archive Triage); [discriminate |].
        apply (strategy_belongs env path Triage). }
      destruct (result (or_chain _)) as [[] | e]; cbn [trace fst];
        rewrite ?forallb_app, Htr; reflexivity.
Qed.

End Verdict.


(** With both tools reporting macros the scan ends after the triage
    call, before anything looks at an archive. *)
Lemma fixed_order_first_positive_halts_witness :
  ~ In Nested (executed (trace (main Samples.env_tools_report "invoice.doc")))
  /\ forallb (fun ev => negb (is_archive_read ev))
       (trace (main Samples.env_tools_report "invoice.doc")) = true.
Proof.
  apply (fixed_order_first_positive_halts Samples.env_tools_report "invoice.doc").
  reflexivity.
Defined.

Section ErrorHandling.

Variable env : Env.
Variable path : string.

(** C3, as the code has it.  Apart from what [zipfile.is_zipfile]
    itself raises, no error that is an [Exception] leaves a strategy.
    When a call of a collaborator inside the [try] block raises, the
    triage adapter, the stream-marker adapter, the structural check
    ([isOleFile], [OleFileIO], either [exists]) and the parser strategy
    ([VBA_Parser], [detect_macros], [close]) return [False], and so does
    the nested scanner when opening the archive raises; when handling
    an entry of the archive raises, the error is logged and the loop
    goes on with the next entry.  [main] does nothing with the path
    before the strategies: whatever the path, its first action is the
    call of the triage tool; for a path at which no file can be opened
    the structural check, the parser strategy and the nested scanner
    return [False], and the verdict is [NO_MACROS] when the two tool
    adapters return [False] as well. *)
Theorem errors_contained :
  (forall s e, is_Exception e = true ->
               zipfile_is_zipfile env path <> Raise e ->
               result (run_strategy s env path) <> Raise e)
  /\ (forall e, subprocess_run env ["olevba"; "-t"; path] = Raise e ->
                result (run_olevba_triage env path) = Ok false)
  /\ (forall e, subprocess_run env ["oledump.py"; path] = Raise e ->
                is_Exception e = true ->
                result (run_oledump_check env path) = Ok false)
  /\ (forall e,
        olefile_isOleFile env path = Raise e
        \/ (olefile_isOleFile env path = Ok true
            /\ olefile_OleFileIO env path = Raise e)
        \/ (exists ole,
              olefile_isOleFile env path = Ok true
              /\ olefile_OleFileIO env path = Ok ole
              /\ (ole_exists ole "workbook" = Raise e
                  \/ (ole_exists ole "workbook" = Ok true
                      /\ ole_exists ole "_VBA_PROJECT_CUR" = Raise e))) ->
        result (check_excel97_macros env path) = Ok false)
  /\ (forall e,
        VBA_Parser_path env path = Raise e
        \/ (exists vp,
              VBA_Parser_path env path = Ok vp
              /\ (detect_macros vp = Raise e
                  \/ exists b, detect_macros vp = Ok b
                               /\ close vp = Raise e)) ->
        result (run_vba_parser env path) = Ok false)
  /\ (forall e, zipfile_is_zipfile env path = Ok true ->
                zipfile_ZipFile env path = Raise e ->
                is_Exception e = true ->
                result (scan_zip_for_macros env path) = Ok false)
  /\ (forall z subfile rest e,
        result (scan_subfile env z subfile) = Raise e ->
        is_Exception e = true ->
        for_subfiles env z (subfile :: rest)
        = (trace (scan_subfile env z subfile)
           ++ EvLogDebug (FailedToRead subfile e)
              :: trace (for_subfiles env z rest),
           result (for_subfiles env z rest)))
  /\ (exists tl,
        trace (main env path) = EvSubprocess ["olevba"; "-t"; path] :: tl)
  /\ (path_missing env path ->
      result (check_excel97_macros env path) = Ok false
      /\ result (run_vba_parser env path) = Ok false
      /\ result (scan_zip_for_macros env path) = Ok false
      /\ (result (run_olevba_triage env path) = Ok false ->
          result (run_oledump_check env path) = Ok false ->
          result (main env path) = Ok tt
          /\ printed (trace (main env path)) = ["NO_MACROS"])).
Proof.
  assert (Hstruct : forall e,
             olefile_isOleFile env path = Raise e ->
             result (check_excel97_macros env path) = Ok false).
  { intros e H. unfold check_excel97_macros. unfold_monad.
    rewrite H. reflexivity. }
  assert (Hparse : forall e,
             VBA_Parser_path env path = Raise e ->
             result (run_vba_parser env path) = Ok false).
  { intros e H. unfold run_vba_parser. unfold_monad.
    rewrite H. reflexivity. }
  split; [| split; [| split; [| split; [| split; [| split;
    [| split; [| split]]]]]]].
  - intros s e He Hprobe Hr.
    destruct (strategy_escape env path s e Hr He) as [_ H]. contradiction.
  - intros e H. rewrite run_olevba_triage_eq, H. reflexivity.
  - intros e H He. rewrite run_oledump_check_eq, H. cbn. now rewrite He.
  - intros e [H | [[H1 H2] | (ole & H1 & H2 & H3)]].
    + exact (Hstruct e H).
    + unfold check_excel97_macros. unfold_monad.
      rewrite H1. cbn [fst snd app]. rewrite H2. reflexivity.
    + unfold check_excel97_macros. unfold_monad.
      rewrite H1. cbn [fst snd app]. rewrite H2. cbn [fst snd app].
      destruct H3 as [H3 | [H3 H4]]; rewrite H3; cbn [fst snd app];
        [| rewrite H4]; reflexivity.
  - intros e [H | (vp & H1 & H2)].
    + exact (Hparse e H).
    + unfold run_vba_parser. unfold_monad. rewrite H1. cbn [fst snd app].
      destruct H2 as [H2 | (b & H2 & H3)]; rewrite H2; cbn [fst snd app];
        [| rewrite H3]; reflexivity.
  - intros e Hp Hz He.
    rewrite scan_zip_for_macros_eq, Hp, Hz, He. reflexivity.
  - intros z subfile rest e Hr He.
    now rewrite for_subfiles_cons, Hr, He.
  - rewrite main_eq, trace_has_macros.
    destruct (reached_shape env path) as (k & _ & -> & _).
    cbn [firstn fixed_order flat_map run_strategy].
    rewrite run_olevba_triage_eq. cbn [trace fst app].
    destruct (result (has_macros env path)) as [[] | e];
      eexists; cbn [trace fst app]; reflexivity.
  - intros (Hole & Hvp & Hprobe & _).
    assert (Hs : result (check_excel97_macros env path) = Ok false)
      by exact (Hstruct _ Hole).
    assert (Hp : result (run_vba_parser env path) = Ok false)
      by exact (Hparse _ Hvp).
    assert (Hn : result (scan_zip_for_macros env path) = Ok false)
      by (rewrite scan_zip_for_macros_eq, Hprobe; reflexivity).
    repeat split; try assumption.
    + rewrite main_eq. unfold has_macros.
      rewrite (py_or_false _ _ H). cbn [result snd].
      rewrite (py_or_false _ _ H0). cbn [result snd].
      rewrite (py_or_false _ _ Hs). cbn [result snd].
      rewrite (py_or_false _ _ Hp). cbn [result snd].
      rewrite Hn. reflexivity.
    + rewrite main_eq.
      assert (Hm : result (has_macros env path) = Ok false).
      { unfold has_macros.
        rewrite (py_or_false _ _ H). cbn [result snd].
        rewrite (py_or_false _ _ H0). cbn [result snd].
        rewrite (py_or_false _ _ Hs). cbn [result snd].
        rewrite (py_or_false _ _ Hp). cbn [result snd]. exact Hn. }
      rewrite Hm. cbn [trace fst].
      rewrite printed_app, printed_has_macros. reflexivity.
Qed.

(** C4.  If starting either external tool fails, then for an OLE file
    whose directory has both the workbook stream and the VBA project
    stream the scan completes and prints [MACROS_PRESENT]. *)
Theorem fault_isolation_structural (ole : OleFileIO) :
  invocation_fails env ["olevba"; "-t"; path] ->
  invocation_fails env ["oledump.py"; path] ->
  olefile_isOleFile env path = Ok true ->
  olefile_OleFileIO env path = Ok ole ->
  ole_exists ole "workbook" = Ok true ->
  ole_exists ole "_VBA_PROJECT_CUR" = Ok true ->
  result (main env path) = Ok tt
  /\ printed (trace (main env path)) = ["MACROS_PRESENT"].
Proof.
  intros (e1 & H1 & He1) (e2 & H2 & He2) Hole Hopen Hwb Hvba.
  assert (Ht : result (run_olevba_triage env path) = Ok false)
    by (rewrite run_olevba_triage_eq, H1; reflexivity).
  assert (Hd : result (run_oledump_check env path) = Ok false)
    by (rewrite run_oledump_check_eq, H2; cbn; now rewrite He2).
  assert (Hs : result (check_excel97_macros env path) = Ok true).
  { apply check_excel97_macros_positive. split; [exact Hole |].
    exists ole. auto. }
  assert (Hm : result (has_macros env path) = Ok true).
  { unfold has_macros.
    rewrite (py_or_false _ _ Ht). cbn [result snd].
    rewrite (py_or_false _ _ Hd). cbn [result snd].
    rewrite (py_or_true _ _ Hs). reflexivity. }
  rewrite main_eq, Hm. cbn [result trace fst snd].
  split; [reflexivity |].
  rewrite printed_app, printed_has_macros. reflexivity.
Qed.

(** C5, as the code has it.  The result of a strategy is a plain
    boolean: a strategy that can not complete returns [False], the very
    result of a run that completes and finds nothing. *)
Theorem inconclusive_returns_False (s : strategy) (env' : Env) :
  cannot_complete s env path ->
  completes_negative s env' path ->
  result (run_strategy s env path) = Ok false
  /\ result (run_strategy s env' path) = Ok false.
Proof.
  destruct s; cbn [cannot_complete completes_negative run_strategy].
  - intros (e & H & _) (r & Hr & Hk).
    rewrite !run_olevba_triage_eq, H, Hr, Hk. split; reflexivity.
  - intros (e & H & He) (r & Hr & Hk).
    rewrite !run_oledump_check_eq, H, Hr, Hk. cbn. rewrite He.
    split; reflexivity.
  - intros (e & H & _) Hno. unfold check_excel97_macros. unfold_monad.
    rewrite H, Hno. split; reflexivity.
  - intros (e & H & _) (vp & Hvp & Hd & Hc).
    unfold run_vba_parser. unfold_monad.
    rewrite H, Hvp. cbn [fst snd app]. rewrite Hd. cbn [fst snd app].
    rewrite Hc. split; reflexivity.
  - intros (Hp & e & Hz & He) Hno.
    rewrite !scan_zip_for_macros_eq, Hp, Hz, He, Hno. split; reflexivity.
Qed.

(** C6, at the failing inputs.  When the parser opens the file and
    [detect_macros] then raises, [run_vba_parser] returns [False]
    without a call of [close]: the parser handle is not released. *)
Theorem parser_handle_left_open (vp : VBA_Parser) (e : exn) :
  VBA_Parser_path env path = Ok vp ->
  detect_macros vp = Raise e ->
  run_vba_parser env path
  = ([EvVBAParser (FromPath path); EvDetectMacros (FromPath path)], Ok false)
  /\ released (HParser (FromPath path)) (trace (run_vba_parser env path))
     = false.
Proof.
  intros Hvp Hd.
  assert (Heq : run_vba_parser env path
                = ([EvVBAParser (FromPath path);
                    EvDetectMacros (FromPath path)], Ok false)).
  { unfold run_vba_parser. unfold_monad.
    rewrite Hvp. cbn [fst snd app]. rewrite Hd. reflexivity. }
  split; [exact Heq |]. rewrite Heq. reflexivity.
Qed.

(** C7.  The structural check returns [True] if and only if the file is
    an OLE file whose directory has both the stream [workbook] and the
    stream [_VBA_PROJECT_CUR]; with the workbook stream and without the
    VBA project stream it returns [False]. *)
Theorem structural_checker_iff :
  (positive (check_excel97_macros env path) <->
   olefile_isOleFile env path = Ok true
   /\ exists ole, olefile_OleFileIO env path = Ok ole
                  /\ ole_exists ole "workbook" = Ok true
                  /\ ole_exists ole "_VBA_PROJECT_CUR" = Ok true)
  /\ (forall ole,
        olefile_isOleFile env path = Ok true ->
        olefile_OleFileIO env path = Ok ole ->
        ole_exists ole "workbook" = Ok true ->
        ole_exists ole "_VBA_PROJECT_CUR" = Ok false ->
        result (check_excel97_macros env path) = Ok false).
Proof.
  split; [apply check_excel97_macros_positive |].
  intros ole H1 H2 H3 H4. unfold check_excel97_macros. unfold_monad.
  rewrite H1. cbn [fst snd app]. rewrite H2. cbn [fst snd app].
  rewrite H3. cbn [fst snd app]. rewrite H4. reflexivity.
Qed.

End ErrorHandling.

Section ErrorHandlingSamples.

Import Samples.

(** C3, the claim as stated fails: with no file at the path nothing is
    checked first; the five strategies run one after the other and the
    scan ends with [NO_MACROS]. *)
Lemma errors_not_checked_before_strategies :
  ~ errors_surface_as_specified env_bare "missing.doc".
Proof.
  intros [_ Hchk]. unfold checked_before_strategies in Hchk.
  assert (Hmiss : path_missing env_bare "missing.doc")
    by (repeat split; reflexivity).
  specialize (Hchk Hmiss). vm_compute in Hchk. discriminate Hchk.
Qed.

(** An archive that does not open, an OLE directory that can not be
    searched, a broken entry in a package, and no file at all. *)
Lemma errors_contained_witness :
  result (scan_zip_for_macros env_truncated_zip "cut.docm") = Ok false
  /\ result (check_excel97_macros RevisedSamples.env_ole_breaks "odd.xls")
     = Ok false
  /\ result (for_subfiles env_package package
               ["word/broken.bin"; "docProps/app.xml"]) = Ok None
  /\ printed (trace (main env_bare "missing.doc")) = ["NO_MACROS"].
Proof.
  destruct (errors_contained env_truncated_zip "cut.docm")
    as (_ & _ & _ & _ & _ & Hzip & _).
  destruct (errors_contained RevisedSamples.env_ole_breaks "odd.xls")
    as (_ & _ & _ & Hole & _).
  destruct (errors_contained env_package "report.docm")
    as (_ & _ & _ & _ & _ & _ & Hentry & _).
  destruct (errors_contained env_bare "missing.doc")
    as (_ & _ & _ & _ & _ & _ & _ & _ & Hmissing).
  split; [| split; [| split]].
  - apply (Hzip BadZipFile); reflexivity.
  - apply (Hole (OtherException "OleFileError")).
    right. right.
    exists {| ole_exists := fun _ => Raise (OtherException "OleFileError") |}.
    repeat split. now left.
  - rewrite (Hentry package "word/broken.bin" ["docProps/app.xml"] BadZipFile);
      reflexivity.
  - apply Hmissing; [repeat split | |]; reflexivity.
Defined.

(** No tool installed, an Excel 97 workbook with a VBA project. *)
Lemma fault_isolation_structural_witness :
  result (main env_excel97 "book.xls") = Ok tt
  /\ printed (trace (main env_excel97 "book.xls")) = ["MACROS_PRESENT"].
Proof.
  apply (fault_isolation_structural env_excel97 "book.xls"
           (ole_with ["workbook"; "_VBA_PROJECT_CUR"])).
  - exists FileNotFoundError. split; reflexivity.
  - exists FileNotFoundError. split; reflexivity.
  - reflexivity.
  - reflexivity.
  - reflexivity.
  - reflexivity.
Defined.

(** C5, the claim as stated fails: the parser strategy gives the same
    result when the parser can not open the file and when it opens the
    file and sees no macro. *)
Lemma result_does_not_distinguish : ~ result_distinguishes_inconclusive.
Proof.
  intro H.
  apply (H Parser env_bare env_workbook_only "report.doc").
  - exists FileNotFoundError. split; reflexivity.
  - eexists. repeat split; reflexivity.
  - reflexivity.
Qed.

Lemma inconclusive_returns_False_witness :
  result (run_vba_parser env_bare "report.doc") = Ok false
  /\ result (run_vba_parser env_workbook_only "report.doc") = Ok false.
Proof.
  apply (inconclusive_returns_False env_bare "report.doc" Parser
           env_workbook_only).
  - exists FileNotFoundError. split; reflexivity.
  - eexists. repeat split; reflexivity.
Defined.

(** A file the parser opens and then fails on. *)
Lemma parser_handle_left_open_witness :
  released (HParser (FromPath "odd.doc"))
    (trace (run_vba_parser env_parser_breaks "odd.doc")) = false.
Proof.
  apply (parser_handle_left_open env_parser_breaks "odd.doc"
           (parser_of (Raise (OtherException "ProcessingError")))
           (OtherException "ProcessingError")); reflexivity.
Defined.

(** A workbook without a VBA project. *)
Lemma structural_checker_iff_witness :
  result (check_excel97_macros env_workbook_only "plain.xls") = Ok false.
Proof.
  apply (structural_checker_iff env_workbook_only "plain.xls")
    with (ole := ole_with ["workbook"]); reflexivity.
Defined.

End ErrorHandlingSamples.

Section Adapters.

Variable env : Env.
Variable path : string.

(** C8.  The stream-marker adapter returns [True] if and only if the
    dumper ran and some line of its standard output has, as second
    white-space delimited token, "m" in either case; a line without a
    second token is passed over, and no line makes the scan of the
    output raise.  Lines, tokens and the marker are those of
    [Reading], spelled out without the string functions of the code. *)
Theorem stream_marker_iff :
  (positive (run_oledump_check env path) <->
   exists r, subprocess_run env ["oledump.py"; path] = Ok r
             /\ exists line tok,
                  Reading.output_line (stdout r) line
                  /\ Reading.second_token line tok
                  /\ Reading.is_marker tok)
  /\ (forall line rest,
        (forall tok, ~ Reading.second_token line tok) ->
        any_marker (line :: rest) = any_marker rest)
  /\ (forall lines, exists b, any_marker lines = Ok b).
Proof.
  split; [| split; [apply any_marker_no_second_token | apply any_marker_total]].
  unfold positive. rewrite run_oledump_check_eq. cbn [result snd].
  destruct (subprocess_run env ["oledump.py"; path]) as [r | e].
  - rewrite any_marker_reading. split.
    + intro H. exists r. auto.
    + intros (r' & Hr & H). injection Hr as <-. exact H.
  - split.
    + destruct (is_Exception e); discriminate.
    + intros (r & Hr & _). discriminate.
Qed.

(** C9, as the code has it.  The triage adapter returns [True] if and
    only if the tool ran and a case-insensitive substring search finds
    one of the keywords "macros", "autoexec", "vba" in the standard
    output captured from it; the standard error, captured apart, plays
    no role.  The search is that of [Reading], spelled out without the
    string functions of the code. *)
Theorem triage_iff :
  positive (run_olevba_triage env path) <->
  exists r, subprocess_run env ["olevba"; "-t"; path] = Ok r
            /\ exists k, In k keywords
                         /\ Reading.found_ignoring_case k (stdout r).
Proof.
  rewrite run_olevba_triage_positive. split.
  - intros (r & Hr & Hk). exists r. split; [exact Hr |].
    now apply keyword_hit_reading.
  - intros (r & Hr & Hk). exists r. split; [exact Hr |].
    now apply keyword_hit_reading.
Qed.

End Adapters.

(** The second line of the listing, between two line feeds, has the
    marker [M] after the token [7:]: the adapter answers [True]. *)
Lemma stream_marker_iff_witness :
  positive (run_oledump_check Samples.env_tools_report "invoice.doc").
Proof.
  destruct (stream_marker_iff Samples.env_tools_report "invoice.doc")
    as [Hiff _].
  apply Hiff.
  exists {| returncode := 0; stdout := Samples.oledump_listing;
            stderr := "" |}.
  split; [reflexivity |].
  exists "  7: M    1562 'Macros/VBA/ThisDocument'", "M".
  split; [| split].
  - exists (String.append "  1:       114 '\x01CompObj'" Samples.nl),
      Samples.nl.
    repeat split; try reflexivity; right; reflexivity.
  - exists "  ", "7:", " ", "    1562 'Macros/VBA/ThisDocument'".
    repeat split; try reflexivity; [discriminate | right; reflexivity].
  - right. reflexivity.
Defined.

(** The table of the triage tool holds [AutoExec], in mixed case: the
    adapter answers [True]. *)
Lemma triage_iff_witness :
  positive (run_olevba_triage Samples.env_tools_report "invoice.doc").
Proof.
  apply (triage_iff Samples.env_tools_report "invoice.doc").
  exists {| returncode := 0; stdout := Samples.olevba_triage_table;
            stderr := "" |}.
  split; [reflexivity |].
  exists "autoexec". split; [right; left; reflexivity |].
  exists (String.append "Flags        Filename"
            (String.append Samples.nl "OLE:MAS----- invoice.doc  ")),
    "AutoExec", " keywords found".
  split; reflexivity.
Defined.

(** C9, the claim as stated fails: the tool writes nothing to standard
    output and a traceback naming [olevba.py] to standard error; the
    combined output holds "vba", the adapter answers [False]. *)
Lemma triage_ignores_standard_error :
  ~ triage_searches_combined_output RevisedSamples.env_stderr_only
      "broken.doc".
Proof.
  intros [_ Hfound].
  assert (Hpos : positive (run_olevba_triage RevisedSamples.env_stderr_only
                             "broken.doc")).
  { apply Hfound.
    exists {| returncode := 1; stdout := "";
              stderr := "Traceback: olevba.py, line 1" |}.
    split; [reflexivity |].
    exists "vba". split; [right; right; left; reflexivity |].
    exists "Traceback: ole", "vba", ".py, line 1". split; reflexivity. }
  vm_compute in Hpos. discriminate Hpos.
Qed.


Section NestedContract.

Variable env : Env.

Lemma bytes_eqb_eq (a b : bytes) : bytes_eqb a b = true <-> a = b.
Proof.
  revert b. induction a as [| x a IH]; intros [| y b]; simpl;
    try (split; [discriminate | discriminate]); [tauto |].
  rewrite andb_true_iff, IH. split.
  - intros [Hxy ->]. apply Byte.byte_dec_bl in Hxy. now subst.
  - intro H. injection H as -> ->. split; [now apply Byte.byte_dec_lb | reflexivity].
Qed.

(** Whatever the entry, a sized read asks for as many bytes as the
    signature is long. *)
Lemma scan_subfile_sized_read (z : ZipFile) (subfile : string) (k : nat) :
  In (EvZipRead subfile (Some k)) (trace (scan_subfile env z subfile)) ->
  k = length (olefile_MAGIC env).
Proof.
  unfold scan_subfile. unfold_monad.
  split_outcomes; cbn [In]; intuition (try discriminate; congruence).
Qed.

(** The full content of an entry is read only when it is OLE signed. *)
Lemma scan_subfile_full_read (z : ZipFile) (subfile : string) :
  In (EvZipRead subfile None) (trace (scan_subfile env z subfile)) ->
  ole_signed env z subfile.
Proof.
  unfold scan_subfile, ole_signed. unfold_monad.
  destruct (zopen z subfile) as [f | e0] eqn:Hf; cbn [fst snd app In].
  2: intuition discriminate.
  destruct (zread f (Some (length (olefile_MAGIC env)))) as [magic | e1] eqn:Hm;
    cbn [fst snd app In].
  2: intuition discriminate.
  destruct (bytes_eqb magic (olefile_MAGIC env)) eqn:Heq.
  - apply bytes_eqb_eq in Heq. subst magic. intros _. eauto.
  - cbn [fst snd app In]. intuition discriminate.
Qed.

Lemma scan_subfile_not_signed (z : ZipFile) (subfile : string) :
  not_ole_signed env z subfile ->
  scan_subfile env z subfile
  = ([EvZipOpen subfile;
      EvZipRead subfile (Some (length (olefile_MAGIC env)))], Ok None).
Proof.
  intros (f & magic & Hf & Hm & Hne).
  unfold scan_subfile. unfold_monad.
  rewrite Hf. cbn [fst snd app]. rewrite Hm. cbn [fst snd app].
  rewrite Hne. reflexivity.
Qed.

Lemma scan_subfile_signed (z : ZipFile) (subfile : string)
  (f : ZipExtFile) (data : bytes) (vp : VBA_Parser) (b : bool) :
  zopen z subfile = Ok f ->
  zread f (Some (length (olefile_MAGIC env))) = Ok (olefile_MAGIC env) ->
  zread f None = Ok data ->
  VBA_Parser_data env subfile data = Ok vp ->
  detect_macros vp = Ok b ->
  close vp = Ok tt ->
  scan_subfile env z subfile
  = ([EvZipOpen subfile;
      EvZipRead subfile (Some (length (olefile_MAGIC env)));
      EvLogDebug (OleFileDetected subfile);
      EvZipOpen subfile;
      EvZipRead subfile None;
      EvVBAParser (FromData subfile);
      EvDetectMacros (FromData subfile);
      EvParserClose (FromData subfile)],
     Ok (if b then Some true else None)).
Proof.
  intros Hf Hm Hall Hvp Hd Hc.
  unfold scan_subfile. unfold_monad.
  rewrite Hf. cbn [fst snd app]. rewrite Hm. cbn [fst snd app].
  rewrite (proj2 (bytes_eqb_eq _ _) eq_refl). cbn [fst snd app].
  rewrite Hall. cbn [fst snd app].
  rewrite Hvp. cbn [fst snd app]. rewrite Hd. cbn [fst snd app].
  rewrite Hc. cbn [fst snd app]. destruct b; reflexivity.
Qed.

(** C10.  For an archive [z]: a sized read of an entry asks for as many
    bytes as the OLE signature is long; the full content is read only
    when those bytes are the signature, and is then handed to the VBA
    parser as in-memory data; an entry that is not signed costs one
    open and one sized read; the loop returns [True] exactly when some
    entry is positive and all entries before it were skipped, it does
    not look at the entries after a positive one, and an entry that is
    not signed or can not be read is skipped, the loop going on with the
    remaining entries; the scanner is positive exactly when the loop
    returned [True]; an archive that does not open gives [False]. *)
Theorem nested_scanner_contract (path : string) (z : ZipFile) :
  let n := length (olefile_MAGIC env) in
  (forall subfile k,
      In (EvZipRead subfile (Some k)) (trace (scan_subfile env z subfile)) ->
      k = n)
  /\ (forall subfile,
        In (EvZipRead subfile None) (trace (scan_subfile env z subfile)) ->
        ole_signed env z subfile)
  /\ (forall subfile,
        not_ole_signed env z subfile ->
        scan_subfile env z subfile
        = ([EvZipOpen subfile; EvZipRead subfile (Some n)], Ok None))
  /\ (forall subfile f data vp b,
        zopen z subfile = Ok f ->
        zread f (Some n) = Ok (olefile_MAGIC env) ->
        zread f None = Ok data ->
        VBA_Parser_data env subfile data = Ok vp ->
        detect_macros vp = Ok b ->
        close vp = Ok tt ->
        scan_subfile env z subfile
        = ([EvZipOpen subfile; EvZipRead subfile (Some n);
            EvLogDebug (OleFileDetected subfile);
            EvZipOpen subfile; EvZipRead subfile None;
            EvVBAParser (FromData subfile);
            EvDetectMacros (FromData subfile);
            EvParserClose (FromData subfile)],
           Ok (if b then Some true else None)))
  /\ (forall names,
        result (for_subfiles env z names) = Ok (Some true) <->
        exists pre subfile post,
          names = pre ++ subfile :: post
          /\ Forall (skipped env z) pre
          /\ result (scan_subfile env z subfile) = Ok (Some true))
  /\ (forall pre subfile post,
        result (scan_subfile env z subfile) = Ok (Some true) ->
        for_subfiles env z (pre ++ subfile :: post)
        = for_subfiles env z (pre ++ [subfile]))
  /\ (forall subfile rest,
        not_ole_signed env z subfile \/ unreadable env z subfile ->
        result (for_subfiles env z (subfile :: rest))
        = result (for_subfiles env z rest)
        /\ exists t, trace (for_subfiles env z (subfile :: rest))
                     = t ++ trace (for_subfiles env z rest))
  /\ (zipfile_is_zipfile env path = Ok true ->
      zipfile_ZipFile env path = Ok z ->
      (positive (scan_zip_for_macros env path) <->
       result (for_subfiles env z (namelist z)) = Ok (Some true)))
  /\ (forall e,
        zipfile_is_zipfile env path = Ok true ->
        zipfile_ZipFile env path = Raise e ->
        is_Exception e = true ->
        scan_zip_for_macros env path
        = ([EvIsZipfile path; EvZipFile path;
            EvLogDebug (ErrorOpeningZip e)], Ok false)).
Proof.
  cbv zeta.
  split; [exact (scan_subfile_sized_read z) |].
  split; [exact (scan_subfile_full_read z) |].
  split; [exact (scan_subfile_not_signed z) |].
  split; [exact (scan_subfile_signed z) |].
  split; [exact (for_subfiles_true env z) |].
  split; [intros pre subfile post; apply for_subfiles_stop |].
  split.
  { intros subfile rest H. apply for_subfiles_skip.
    destruct H as [H | H]; [left | now right].
    now rewrite (scan_subfile_not_signed _ _ H). }
  split; [exact (scan_zip_for_macros_positive env path z) |].
  intros e Hp Hz He. rewrite scan_zip_for_macros_eq, Hp, Hz, He. reflexivity.
Qed.

End NestedContract.

(** The package of [env_package]: an XML part and a broken entry are
    passed over, the embedded OLE object is parsed and found positive,
    the part after it is not looked at. *)
Lemma nested_scanner_contract_witness :
  result (for_subfiles Samples.env_package Samples.package
            (namelist Samples.package)) = Ok (Some true).
Proof.
  destruct (nested_scanner_contract Samples.env_package "report.docm"
              Samples.package) as (_ & _ & _ & _ & Hloop & _).
  apply Hloop.
  exists ["[Content_Types].xml"; "word/broken.bin"],
    "word/vbaProject.bin", ["docProps/app.xml"].
  split; [reflexivity |]. split; [| reflexivity].
  constructor; [left; reflexivity |].
  constructor; [| constructor].
  right. exists BadZipFile. split; reflexivity.
Defined.

(* ===================================================================== *)
(** * Part IV: further properties of the code *)
(* ===================================================================== *)

(** ** The verdict without assumptions *)

Section VerdictInGeneral.

Variable env : Env.
Variable path : string.

(** The chain ends at one strategy: the strategies before it returned
    [False], and the chain's outcome is that strategy's outcome. *)
Lemma has_macros_stops :
  exists s,
    (forall s', rank s' < rank s ->
                result (run_strategy s' env path) = Ok false)
    /\ result (has_macros env path) = result (run_strategy s env path)
    /\ (rank s < 4 -> result (run_strategy s env path) <> Ok false)
    /\ reached env path fixed_order = firstn (S (rank s)) fixed_order.
Proof.
  unfold has_macros, fixed_order. cbn [reached].
  destruct (result (run_strategy Triage env path)) as [[] | e0] eqn:H0;
    cbn [run_strategy] in H0.
  1: exists Triage; rewrite (py_or_true _ _ H0); repeat split;
    [ intros s' Hs'; simpl in Hs'; lia | now symmetry | cbn; congruence ].
  2: exists Triage; rewrite (py_or_Raise _ _ _ H0); repeat split;
    [ intros s' Hs'; simpl in Hs'; lia | now symmetry | cbn; congruence ].
  rewrite (py_or_false _ _ H0). cbn [result snd].
  destruct (result (run_strategy StreamMarker env path)) as [[] | e1] eqn:H1;
    cbn [run_strategy] in H1.
  1: exists StreamMarker; rewrite (py_or_true _ _ H1); repeat split;
    [ intros s' Hs'; destruct s'; simpl in Hs'; try lia; exact H0
    | now symmetry | cbn; congruence ].
  2: exists StreamMarker; rewrite (py_or_Raise _ _ _ H1); repeat split;
    [ intros s' Hs'; destruct s'; simpl in Hs'; try lia; exact H0
    | now symmetry | cbn; congruence ].
  rewrite (py_or_false _ _ H1). cbn [result snd].
  destruct (result (run_strategy Structural env path)) as [[] | e2] eqn:H2;
    cbn [run_strategy] in H2.
  1: exists Structural; rewrite (py_or_true _ _ H2); repeat split;
    [ intros s' Hs'; destruct s'; simpl in Hs'; try lia; assumption
    | now symmetry | cbn; congruence ].
  2: exists Structural; rewrite (py_or_Raise _ _ _ H2); repeat split;
    [ intros s' Hs'; destruct s'; simpl in Hs'; try lia; assumption
    | now symmetry | cbn; congruence ].
  rewrite (py_or_false _ _ H2). cbn [result snd].
  destruct (result (run_strategy Parser env path)) as [[] | e3] eqn:H3;
    cbn [run_strategy] in H3.
  1: exists Parser; rewrite (py_or_true _ _ H3); repeat split;
    [ intros s' Hs'; destruct s'; simpl in Hs'; try lia; assumption
    | now symmetry | cbn; congruence ].
  2: exists Parser; rewrite (py_or_Raise _ _ _ H3); repeat split;
    [ intros s' Hs'; destruct s'; simpl in Hs'; try lia; assumption
    | now symmetry | cbn; congruence ].
  rewrite (py_or_false _ _ H3). cbn [result snd].
  exists Nested. repeat split.
  - intros s' Hs'; destruct s'; simpl in Hs'; try lia; assumption.
  - simpl. lia.
  - destruct (result (run_strategy Nested env path)) as [[] |]; reflexivity.
Qed.

Lemma rank_inj (a b : strategy) : rank a = rank b -> a = b.
Proof. destruct a, b; simpl; congruence. Qed.

Lemma rank_bound (s : strategy) : rank s < 5.
Proof. destruct s; simpl; lia. Qed.

Lemma printed_main :
  printed (trace (main env path))
  = match result (has_macros env path) with
    | Ok true => ["MACROS_PRESENT"]
    | Ok false => ["NO_MACROS"]
    | Raise _ => []
    end.
Proof.
  rewrite main_eq.
  destruct (result (has_macros env path)) as [[] | e]; cbn [trace fst];
    rewrite ?printed_app, printed_has_macros; reflexivity.
Qed.

(** X1.  Whatever the environment, [main] prints [MACROS_PRESENT] if
    and only if some strategy returns [True] and every strategy before
    it in the chain returns [False]. *)
Theorem verdict_first_positive :
  printed (trace (main env path)) = ["MACROS_PRESENT"] <->
  exists s, positive (run_strategy s env path)
            /\ forall s', rank s' < rank s ->
                          result (run_strategy s' env path) = Ok false.
Proof.
  rewrite printed_main.
  destruct has_macros_stops as (s & Hbefore & Hres & Hstop & _).
  rewrite Hres. split.
  - intro H. exists s. split; [| exact Hbefore].
    unfold positive.
    destruct (result (run_strategy s env path)) as [[] | e];
      [reflexivity | discriminate H | discriminate H].
  - intros (t & Hpos & Ht). unfold positive in Hpos.
    destruct (Nat.lt_trichotomy (rank t) (rank s)) as [Hlt | [Heq | Hgt]].
    + rewrite (Hbefore t Hlt) in Hpos. discriminate Hpos.
    + apply rank_inj in Heq. subst t. now rewrite Hpos.
    + pose proof (Ht s Hgt) as Hf. exfalso.
      apply Hstop; [pose proof (rank_bound t); lia | exact Hf].
Qed.

(** X2.  [main] prints [NO_MACROS] if and only if all five strategies
    return [False]; every one of them has then been executed. *)
Theorem no_macros_iff_all_negative :
  (printed (trace (main env path)) = ["NO_MACROS"] <->
   forall s, result (run_strategy s env path) = Ok false)
  /\ (printed (trace (main env path)) = ["NO_MACROS"] ->
      forall s, In s (executed (trace (main env path)))).
Proof.
  destruct has_macros_stops as (s & Hbefore & Hres & Hstop & Hreach).
  assert (Hiff : printed (trace (main env path)) = ["NO_MACROS"] <->
                 forall s, result (run_strategy s env path) = Ok false).
  { rewrite printed_main, Hres. split.
    - intro H.
      assert (Hs : result (run_strategy s env path) = Ok false)
        by (destruct (result (run_strategy s env path)) as [[] | e];
            [discriminate H | reflexivity | discriminate H]).
      assert (rank s = 4).
      { destruct (Nat.lt_ge_cases (rank s) 4) as [Hlt | Hge].
        - exfalso. now apply Hstop.
        - pose proof (rank_bound s). lia. }
      intro t. destruct (Nat.eq_dec (rank t) (rank s)) as [Heq | Hne].
      + apply rank_inj in Heq. now subst.
      + apply Hbefore. pose proof (rank_bound t). lia.
    - intro H. now rewrite (H s). }
  split; [exact Hiff |].
  intros H t. rewrite Hiff in H.
  apply in_executed_main. rewrite Hreach. apply in_firstn_fixed_order.
  assert (rank s = 4).
  { destruct (Nat.lt_ge_cases (rank s) 4) as [Hlt | Hge].
    - exfalso. apply (Hstop Hlt). apply H.
    - pose proof (rank_bound s). lia. }
  pose proof (rank_bound t). lia.
Qed.

(** X3.  [main] either returns after printing exactly one of the two
    verdict lines, or it is left by an exception with nothing printed;
    that exception is not an [Exception], or it was raised by
    [zipfile.is_zipfile]. *)
Theorem main_one_line_or_raise :
  (result (main env path) = Ok tt
   /\ (printed (trace (main env path)) = ["MACROS_PRESENT"]
       \/ printed (trace (main env path)) = ["NO_MACROS"]))
  \/ (exists e,
        result (main env path) = Raise e
        /\ printed (trace (main env path)) = []
        /\ (is_Exception e = false
            \/ zipfile_is_zipfile env path = Raise e)).
Proof.
  rewrite printed_main. rewrite main_eq.
  destruct has_macros_stops as (s & _ & Hres & _).
  destruct (result (has_macros env path)) as [[] | e] eqn:Hm;
    cbn [result snd].
  - left. auto.
  - left. auto.
  - right. exists e. repeat split.
    symmetry in Hres.
    destruct (is_Exception e) eqn:He; [right | now left].
    now destruct (strategy_escape env path s e Hres He).
Qed.

(** X4.  [main] is left by the exception [e] if and only if some
    strategy raises [e] after all strategies before it returned
    [False]. *)
Theorem main_raises_iff (e : exn) :
  result (main env path) = Raise e <->
  exists s, result (run_strategy s env path) = Raise e
            /\ forall s', rank s' < rank s ->
                          result (run_strategy s' env path) = Ok false.
Proof.
  rewrite main_eq.
  destruct has_macros_stops as (s & Hbefore & Hres & Hstop & _).
  split.
  - intro H. exists s. split; [| exact Hbefore]. rewrite <- Hres.
    destruct (result (has_macros env path)) as [[] | e'];
      cbn [result snd] in H; try discriminate H.
    injection H as ->. reflexivity.
  - intros (t & Ht & Hbt).
    destruct (Nat.lt_trichotomy (rank t) (rank s)) as [Hlt | [Heq | Hgt]].
    + rewrite (Hbefore t Hlt) in Ht. discriminate Ht.
    + apply rank_inj in Heq. subst t. rewrite Hres, Ht. reflexivity.
    + exfalso. apply Hstop; [pose proof (rank_bound t); lia |].
      now apply Hbt.
Qed.

End VerdictInGeneral.

(** ** The strategies: outcomes the handlers decide *)

Section StrategyOutcomes.

Variable env : Env.
Variable path : string.

(** X5.  [run_vba_parser] returns [True] exactly when the parser opens,
    [detect_macros()] returns [True] and [close()] returns; when
    [close()] raises after macros were detected, the detection is lost
    and the function returns [False]. *)
Theorem parser_positive_needs_close :
  (positive (run_vba_parser env path) <->
   exists vp, VBA_Parser_path env path = Ok vp
              /\ detect_macros vp = Ok true
              /\ exists u, close vp = Ok u)
  /\ (forall vp e,
        VBA_Parser_path env path = Ok vp ->
        detect_macros vp = Ok true ->
        close vp = Raise e ->
        run_vba_parser env path
        = ([EvVBAParser (FromPath path); EvDetectMacros (FromPath path);
            EvParserClose (FromPath path)], Ok false)).
Proof.
  split; [apply run_vba_parser_positive |].
  intros vp e Hvp Hd Hc. unfold run_vba_parser. unfold_monad.
  rewrite Hvp. cbn [fst snd app]. rewrite Hd. cbn [fst snd app].
  rewrite Hc. reflexivity.
Qed.

(** X6.  The three strategies that end in a bare [except:] never raise,
    whatever their collaborators raise, an interrupt included: the
    triage adapter, the structural check and the parser strategy
    always return a boolean. *)
Theorem bare_except_always_returns (s : strategy) :
  s <> StreamMarker -> s <> Nested ->
  exists b, result (run_strategy s env path) = Ok b.
Proof.
  intros H1 H2. destruct s; try congruence; cbn [run_strategy].
  - apply run_olevba_triage_returns.
  - apply check_excel97_macros_returns.
  - apply run_vba_parser_returns.
Qed.

(** X7.  [run_oledump_check] is left by the exception [e] if and only
    if [subprocess.run] raised [e] and [e] is not an [Exception]. *)
Theorem stream_marker_raises_iff (e : exn) :
  result (run_oledump_check env path) = Raise e <->
  subprocess_run env ["oledump.py"; path] = Raise e
  /\ is_Exception e = false.
Proof.
  rewrite run_oledump_check_eq. cbn [result snd].
  destruct (subprocess_run env ["oledump.py"; path]) as [r | e'].
  - destruct (any_marker_total (PyStr.splitlines (stdout r))) as [b ->].
    split; [discriminate | intros [H _]; discriminate H].
  - destruct (is_Exception e') eqn:He'; split.
    + discriminate.
    + intros [H He]. injection H as ->. congruence.
    + intro H. injection H as ->. split; [reflexivity | exact He'].
    + intros [H _]. injection H as ->. reflexivity.
Qed.

(** X8.  [scan_zip_for_macros] is left by the exception [e] if and only
    if [zipfile.is_zipfile] raised [e], or the probe said ZIP and [e],
    which is then not an [Exception], came from opening the archive or
    from the loop over its entries. *)
Theorem nested_scanner_raises_iff (e : exn) :
  result (scan_zip_for_macros env path) = Raise e <->
  zipfile_is_zipfile env path = Raise e
  \/ (zipfile_is_zipfile env path = Ok true
      /\ is_Exception e = false
      /\ (zipfile_ZipFile env path = Raise e
          \/ exists z, zipfile_ZipFile env path = Ok z
                       /\ result (for_subfiles env z (namelist z))
                          = Raise e)).
Proof.
  rewrite scan_zip_for_macros_eq.
  destruct (zipfile_is_zipfile env path) as [[] | e0]; cbn [result snd].
  - destruct (zipfile_ZipFile env path) as [z | e1].
    + cbv zeta.
      destruct (result (for_subfiles env z (namelist z))) as [[v |] | e2] eqn:Hl;
        cbn [result snd].
      * split; [discriminate |].
        intros [H | (_ & _ & [H | (z' & Hz & H)])]; try discriminate H.
        injection Hz as <-. congruence.
      * split; [discriminate |].
        intros [H | (_ & _ & [H | (z' & Hz & H)])]; try discriminate H.
        injection Hz as <-. congruence.
      * pose proof (for_subfiles_escape env z (namelist z) e2 Hl) as He2.
        rewrite He2. cbn [result snd]. split.
        -- intro H. injection H as ->. right. repeat split; [exact He2 |].
           right. exists z. auto.
        -- intros [H | (_ & _ & [H | (z' & Hz & H)])]; try discriminate H.
           injection Hz as <-. congruence.
    + destruct (is_Exception e1) eqn:He1; cbn [result snd]; split.
      * discriminate.
      * intros [H | (_ & He & [H | (z' & Hz & _)])]; try discriminate.
        injection H as ->. congruence.
      * intro H. injection H as ->. right. auto.
      * intros [H | (_ & He & [H | (z' & Hz & _)])]; try discriminate.
        injection H as ->. reflexivity.
  - split; [discriminate |].
    intros [H | (H & _)]; discriminate H.
  - split.
    + intro H. injection H as ->. now left.
    + intros [H | (H & _)]; [exact H | discriminate H].
Qed.

(** X9.  The adapters read nothing but the captured standard output:
    two runs of a tool with the same standard output give the same
    result, whatever the exit status and the standard error; for the
    triage adapter the letter case of the output does not matter
    either. *)
Theorem adapters_read_stdout_only (env' : Env) (r r' : CompletedProcess) :
  (subprocess_run env ["olevba"; "-t"; path] = Ok r ->
   subprocess_run env' ["olevba"; "-t"; path] = Ok r' ->
   PyStr.lower (stdout r) = PyStr.lower (stdout r') ->
   run_olevba_triage env path = run_olevba_triage env' path)
  /\ (subprocess_run env ["oledump.py"; path] = Ok r ->
      subprocess_run env' ["oledump.py"; path] = Ok r' ->
      stdout r = stdout r' ->
      run_oledump_check env path = run_oledump_check env' path).
Proof.
  split; intros H H' Hout.
  - now rewrite !run_olevba_triage_eq, H, H', Hout.
  - now rewrite !run_oledump_check_eq, H, H', Hout.
Qed.

(** X10.  The structural check asks no more than it needs: unless
    [isOleFile] answers [True] the file is not opened, and unless the
    stream [workbook] exists the stream [_VBA_PROJECT_CUR] is not
    looked for. *)
Theorem structural_check_asks_in_turn :
  (olefile_isOleFile env path <> Ok true ->
   check_excel97_macros env path = ([EvIsOleFile path], Ok false))
  /\ (forall ole,
        olefile_isOleFile env path = Ok true ->
        olefile_OleFileIO env path = Ok ole ->
        ole_exists ole "workbook" <> Ok true ->
        check_excel97_macros env path
        = ([EvIsOleFile path; EvOleFileIO path;
            EvOleExists path "workbook"], Ok false)).
Proof.
  split.
  - intro H. unfold check_excel97_macros. unfold_monad.
    destruct (olefile_isOleFile env path) as [[] | e]; [congruence | |];
      reflexivity.
  - intros ole H1 H2 H3. unfold check_excel97_macros. unfold_monad.
    rewrite H1. cbn [fst snd app]. rewrite H2. cbn [fst snd app].
    destruct (ole_exists ole "workbook") as [[] | e]; [congruence | |];
      reflexivity.
Qed.

End StrategyOutcomes.

(** ** The nested scanner: entries, archive and parser handles *)

Section NestedInDepth.

Variable env : Env.

Lemma scan_subfile_head (z : ZipFile) (subfile : string) :
  exists tl, trace (scan_subfile env z subfile) = EvZipOpen subfile :: tl.
Proof.
  unfold scan_subfile. unfold_monad.
  split_outcomes; eexists; reflexivity.
Qed.

Lemma scan_subfile_no_close (z : ZipFile) (subfile : string) :
  filter is_zip_close (trace (scan_subfile env z subfile)) = [].
Proof.
  unfold scan_subfile. unfold_monad.
  split_outcomes; reflexivity.
Qed.

Lemma for_subfiles_no_close (z : ZipFile) (names : list string) :
  filter is_zip_close (trace (for_subfiles env z names)) = [].
Proof.
  induction names as [| subfile rest IH]; [reflexivity |].
  rewrite for_subfiles_cons.
  pose proof (scan_subfile_no_close z subfile) as Hs.
  destruct (result (scan_subfile env z subfile)) as [[v |] | e]; cbn [trace fst].
  - exact Hs.
  - now rewrite filter_app, Hs, IH.
  - destruct (is_Exception e); cbn [trace fst]; [| exact Hs].
    rewrite filter_app, Hs. cbn. exact IH.
Qed.

(** X11.  An entry makes the loop return [True] exactly when it opens,
    its first bytes are the OLE signature, its full content is read, a
    parser opens on that content, [detect_macros()] returns [True] and
    [close()] returns; and when the scanner answers [True], the archive
    has such an entry. *)
Theorem nested_positive_is_sound (path : string) :
  (forall z subfile,
      result (scan_subfile env z subfile) = Ok (Some true) <->
      exists f data vp u,
        zopen z subfile = Ok f
        /\ zread f (Some (length (olefile_MAGIC env))) = Ok (olefile_MAGIC env)
        /\ zread f None = Ok data
        /\ VBA_Parser_data env subfile data = Ok vp
        /\ detect_macros vp = Ok true
        /\ close vp = Ok u)
  /\ (positive (scan_zip_for_macros env path) ->
      exists z subfile,
        zipfile_ZipFile env path = Ok z
        /\ In subfile (namelist z)
        /\ result (scan_subfile env z subfile) = Ok (Some true)).
Proof.
  split.
  - intros z subfile. unfold scan_subfile. unfold_monad.
    destruct (zopen z subfile) as [f | e0]; cbn [fst snd app];
      [| split; [discriminate | intros (f & d & vp & u & H & _); discriminate H]].
    destruct (zread f (Some (length (olefile_MAGIC env)))) as [magic | e1] eqn:Hm;
      cbn [fst snd app];
      [| split; [discriminate |];
         intros (f' & d & vp & u & H & Hm' & _); injection H as <-; congruence].
    destruct (bytes_eqb magic (olefile_MAGIC env)) eqn:Heq; cbn [fst snd app].
    2: { split; [discriminate |].
         intros (f' & d & vp & u & H & Hm' & _). injection H as <-.
         rewrite Hm in Hm'. injection Hm' as ->.
         rewrite (proj2 (bytes_eqb_eq _ _) eq_refl) in Heq. discriminate Heq. }
    apply bytes_eqb_eq in Heq. subst magic.
    destruct (zread f None) as [data | e2] eqn:Hall; cbn [fst snd app];
      [| split; [discriminate |];
         intros (f' & d & vp & u & H & _ & Hall' & _); injection H as <-;
         congruence].
    destruct (VBA_Parser_data env subfile data) as [vp | e3] eqn:Hvp;
      cbn [fst snd app];
      [| split; [discriminate |];
         intros (f' & d & vp & u & H & _ & Hall' & Hvp' & _);
         injection H as <-; rewrite Hall in Hall'; injection Hall' as <-;
         congruence].
    destruct (detect_macros vp) as [b | e4] eqn:Hd; cbn [fst snd app];
      [| split; [discriminate |];
         intros (f' & d & vp' & u & H & _ & Hall' & Hvp' & Hd' & _);
         injection H as <-; rewrite Hall in Hall'; injection Hall' as <-;
         rewrite Hvp in Hvp'; injection Hvp' as <-; congruence].
    destruct (close vp) as [u | e5] eqn:Hc; cbn [fst snd app];
      [| split; [discriminate |];
         intros (f' & d & vp' & u & H & _ & Hall' & Hvp' & _ & Hc');
         injection H as <-; rewrite Hall in Hall'; injection Hall' as <-;
         rewrite Hvp in Hvp'; injection Hvp' as <-; congruence].
    destruct b; cbn [fst snd app].
    + split; [| reflexivity]. intros _. exists f, data, vp, u. auto 7.
    + split; [discriminate |].
      intros (f' & d & vp' & u' & H & _ & Hall' & Hvp' & Hd' & _).
      injection H as <-. rewrite Hall in Hall'. injection Hall' as <-.
      rewrite Hvp in Hvp'. injection Hvp' as <-. congruence.
  - unfold positive. rewrite scan_zip_for_macros_eq.
    destruct (zipfile_is_zipfile env path) as [[] | e0]; cbn [result snd];
      try discriminate.
    destruct (zipfile_ZipFile env path) as [z | e1].
    + cbv zeta.
      destruct (result (for_subfiles env z (namelist z))) as [[v |] | e2] eqn:Hl;
        cbn [result snd].
      * intro H. injection H as ->.
        apply for_subfiles_true in Hl.
        destruct Hl as (pre & subfile & post & Hn & _ & Hs).
        exists z, subfile. repeat split; [| exact Hs].
        rewrite Hn. apply in_or_app. right. now left.
      * discriminate.
      * destruct (is_Exception e2); discriminate.
    + destruct (is_Exception e1); discriminate.
Qed.

(** X12.  The archive is opened only after the probe said ZIP; once it
    is open it is closed exactly once, after the last read of the
    archive; and when opening it fails there is nothing to close. *)
Theorem archive_opened_and_closed (path : string) :
  (In (EvZipFile path) (trace (scan_zip_for_macros env path)) ->
   zipfile_is_zipfile env path = Ok true)
  /\ (forall z,
        zipfile_is_zipfile env path = Ok true ->
        zipfile_ZipFile env path = Ok z ->
        exists before after,
          trace (scan_zip_for_macros env path)
          = before ++ EvZipClose path :: after
          /\ filter is_zip_close before = []
          /\ filter is_zip_close after = []
          /\ forallb (fun ev => negb (is_archive_read ev)) after = true)
  /\ (forall e,
        zipfile_ZipFile env path = Raise e ->
        filter is_zip_close (trace (scan_zip_for_macros env path)) = []).
Proof.
  split; [| split].
  - rewrite scan_zip_for_macros_eq.
    destruct (zipfile_is_zipfile env path) as [[] | e0]; [reflexivity | |];
      cbn [trace fst In]; intros [H | []]; discriminate H.
  - intros z Hp Hz. rewrite scan_zip_for_macros_eq, Hp, Hz. cbv zeta.
    pose proof (for_subfiles_no_close z (namelist z)) as Hnc.
    set (loop := trace (for_subfiles env z (namelist z))) in *.
    assert (Hb : filter is_zip_close
                   (EvIsZipfile path :: EvZipFile path :: EvNamelist path
                    :: loop) = [])
      by (cbn; exact Hnc).
    destruct (result (for_subfiles env z (namelist z))) as [[v |] | e];
      cbn [trace fst].
    + exists (EvIsZipfile path :: EvZipFile path :: EvNamelist path :: loop), [].
      repeat split; [exact Hb].
    + exists (EvIsZipfile path :: EvZipFile path :: EvNamelist path :: loop), [].
      repeat split; [exact Hb].
    + destruct (is_Exception e); cbn [trace fst].
      * exists (EvIsZipfile path :: EvZipFile path :: EvNamelist path :: loop),
          [EvLogDebug (ErrorOpeningZip e)].
        repeat split; [| exact Hb].
        cbn [app]. now rewrite <- app_assoc.
      * exists (EvIsZipfile path :: EvZipFile path :: EvNamelist path :: loop), [].
        repeat split; [exact Hb].
  - intros e Hz. rewrite scan_zip_for_macros_eq, Hz.
    destruct (zipfile_is_zipfile env path) as [[] | e0]; try reflexivity.
    destruct (is_Exception e); reflexivity.
Qed.

(** X13.  A package without an OLE signed entry costs one open and one
    sized read per entry, in the order of the name list; the loop ends
    without a verdict and no parser is created. *)
Theorem unsigned_package_never_parsed (z : ZipFile) (names : list string) :
  Forall (not_ole_signed env z) names ->
  for_subfiles env z names = (flat_map (probe_events env) names, Ok None)
  /\ existsb is_parser_open (trace (for_subfiles env z names)) = false.
Proof.
  intro Hall.
  assert (Heq : for_subfiles env z names
                = (flat_map (probe_events env) names, Ok None)).
  { induction Hall as [| subfile rest Hs _ IH]; [reflexivity |].
    rewrite for_subfiles_cons, (scan_subfile_not_signed env z subfile Hs).
    cbn [result trace fst snd]. rewrite IH. reflexivity. }
  split; [exact Heq |]. rewrite Heq. cbn [trace fst].
  clear. induction names as [| n rest IH]; [reflexivity |].
  cbn. exact IH.
Qed.

(** X14.  When the loop ends without a verdict, every entry name of the
    list has been opened. *)
Theorem loop_visits_every_entry (z : ZipFile) (names : list string) :
  result (for_subfiles env z names) = Ok None ->
  forall subfile, In subfile names ->
                  In (EvZipOpen subfile) (trace (for_subfiles env z names)).
Proof.
  induction names as [| a rest IH]; [intros _ s [] |].
  rewrite for_subfiles_cons.
  destruct (scan_subfile_head z a) as [tl Htl].
  destruct (result (scan_subfile env z a)) as [[v |] | e] eqn:Ha;
    cbn [result trace fst snd].
  - discriminate.
  - intros Hrest s [<- | Hin]; apply in_or_app.
    + left. rewrite Htl. now left.
    + right. now apply IH.
  - destruct (is_Exception e); cbn [result trace fst snd]; [| discriminate].
    intros Hrest s [<- | Hin]; apply in_or_app.
    + left. rewrite Htl. now left.
    + right. right. now apply IH.
Qed.

(** X15.  In the loop the parser handle is not released either when
    [detect_macros()] raises: for an OLE signed entry whose parser opens
    and then fails, the body ends with that exception after seven
    calls, none of them [close()]. *)
Theorem nested_parser_left_open (z : ZipFile) (subfile : string)
  (f : ZipExtFile) (data : bytes) (vp : VBA_Parser) (e : exn) :
  zopen z subfile = Ok f ->
  zread f (Some (length (olefile_MAGIC env))) = Ok (olefile_MAGIC env) ->
  zread f None = Ok data ->
  VBA_Parser_data env subfile data = Ok vp ->
  detect_macros vp = Raise e ->
  scan_subfile env z subfile
  = ([EvZipOpen subfile;
      EvZipRead subfile (Some (length (olefile_MAGIC env)));
      EvLogDebug (OleFileDetected subfile);
      EvZipOpen subfile;
      EvZipRead subfile None;
      EvVBAParser (FromData subfile);
      EvDetectMacros (FromData subfile)], Raise e)
  /\ released (HParser (FromData subfile))
       (trace (scan_subfile env z subfile)) = false.
Proof.
  intros Hf Hm Hall Hvp Hd.
  assert (Heq : scan_subfile env z subfile
                = ([EvZipOpen subfile;
                    EvZipRead subfile (Some (length (olefile_MAGIC env)));
                    EvLogDebug (OleFileDetected subfile);
                    EvZipOpen subfile;
                    EvZipRead subfile None;
                    EvVBAParser (FromData subfile);
                    EvDetectMacros (FromData subfile)], Raise e)).
  { unfold scan_subfile. unfold_monad.
    rewrite Hf. cbn [fst snd app]. rewrite Hm. cbn [fst snd app].
    rewrite (proj2 (bytes_eqb_eq _ _) eq_refl). cbn [fst snd app].
    rewrite Hall. cbn [fst snd app]. rewrite Hvp. cbn [fst snd app].
    rewrite Hd. reflexivity. }
  split; [exact Heq |]. rewrite Heq. reflexivity.
Qed.

End NestedInDepth.

(** ** The tokens of a line *)

Section Tokens.

Import PyStr.

Lemma has_space_snoc (s : string) (c : ascii) :
  has_space (snoc s c) = has_space s || isspace c.
Proof.
  unfold snoc. induction s as [| d s IH]; simpl.
  - now rewrite orb_false_r.
  - now rewrite IH, orb_assoc.
Qed.

Lemma snoc_not_empty (s : string) (c : ascii) : is_empty (snoc s c) = false.
Proof. destruct s; reflexivity. Qed.

Lemma split_from_clean (s cur tok : string) :
  has_space cur = false ->
  In tok (split_from cur s) ->
  is_empty tok = false /\ has_space tok = false.
Proof.
  revert cur. induction s as [| c s IH]; intros cur Hcur; simpl.
  - destruct (is_empty cur) eqn:He; [intros [] |].
    intros [<- | []]. auto.
  - destruct (isspace c) eqn:Hc.
    + destruct (is_empty cur) eqn:He.
      * apply IH. reflexivity.
      * intros [<- | Hin]; [auto |]. revert Hin. apply IH. reflexivity.
    + apply IH. now rewrite has_space_snoc, Hcur, Hc.
Qed.

(** X16.  The tokens the stream-marker adapter works on are not empty
    and hold no white space, and stripping the line first changes
    nothing: [line.lstrip().split()] yields the tokens of
    [line.split()]. *)
Theorem oledump_tokens_are_clean (line : string) :
  split (lstrip line) = split line
  /\ forall tok, In tok (split line) ->
                 is_empty tok = false /\ has_space tok = false.
Proof.
  split; [apply split_lstrip |].
  intro tok. apply split_from_clean. reflexivity.
Qed.

End Tokens.

(** ** The start of the script *)

Section StartupFacts.

Import Startup.

Variable interp : Interp.

Lemma collect_missing_filter (pkgs missing : list string) :
  (forall p, In p pkgs -> exists o, find_spec interp p = Ok o) ->
  collect_missing interp pkgs missing
  = Ok (missing ++ filter (is_missing interp) pkgs).
Proof.
  revert missing. induction pkgs as [| pkg rest IH]; intros missing Hret.
  - simpl. now rewrite app_nil_r.
  - destruct (Hret pkg (or_introl eq_refl)) as [o Ho].
    assert (Hrest : forall p, In p rest -> exists o, find_spec interp p = Ok o)
      by (intros; apply Hret; now right).
    cbn [collect_missing filter]. unfold is_missing at 1. rewrite Ho.
    destruct o as [origin |].
    + now apply IH.
    + rewrite IH by exact Hrest. now rewrite <- app_assoc.
Qed.

Lemma run_imports_Continue (modules : list string) :
  run_imports interp modules = Continue ->
  forall m, In m modules -> import_module interp m = Ok tt.
Proof.
  induction modules as [| a rest IH]; [intros _ m [] |].
  cbn [run_imports].
  destruct (import_module interp a) as [[] | e] eqn:Ha; [| discriminate].
  intros Hrest m [<- | Hin]; [exact Ha | now apply IH].
Qed.

Lemma run_imports_no_exit (modules : list string) (status : nat) :
  run_imports interp modules <> Exit status.
Proof.
  induction modules as [| a rest IH]; [discriminate |].
  cbn [run_imports]. destruct (import_module interp a); [exact IH | discriminate].
Qed.

Lemma dependency_check_Continue :
  dependency_check interp = ([], Continue) <->
  (exists origin, find_spec interp "olefile" = Ok (Some origin))
  /\ (exists origin, find_spec interp "oletools" = Ok (Some origin)).
Proof.
  unfold dependency_check, required_packages. cbn [collect_missing].
  destruct (find_spec interp "olefile") as [[o1 |] | e1];
    destruct (find_spec interp "oletools") as [[o2 |] | e2]; cbn [app];
    split; try discriminate; try (intros _; split; eauto);
    intros [(x & Hx) (y & Hy)]; discriminate.
Qed.

(** X17.  The check of the packages passes, printing nothing, if and
    only if [find_spec] finds both [olefile] and [oletools]; an
    exception of [find_spec], for either package, is not caught: the
    check ends with the exception [e], nothing printed, if and only if
    [find_spec] raised [e] for [olefile], or answered for [olefile] and
    raised [e] for [oletools]. *)
Theorem dependency_check_passes_iff :
  (dependency_check interp = ([], Continue) <->
   (exists origin, find_spec interp "olefile" = Ok (Some origin))
   /\ (exists origin, find_spec interp "oletools" = Ok (Some origin)))
  /\ (forall e,
        dependency_check interp = ([], Crash e) <->
        find_spec interp "olefile" = Raise e
        \/ (exists o, find_spec interp "olefile" = Ok o
                      /\ find_spec interp "oletools" = Raise e))
  /\ (forall out e, dependency_check interp = (out, Crash e) -> out = []).
Proof.
  split; [apply dependency_check_Continue |].
  unfold dependency_check, required_packages. cbn [collect_missing].
  split.
  - intro e.
    destruct (find_spec interp "olefile") as [[o1 |] | e1];
      destruct (find_spec interp "oletools") as [[o2 |] | e2]; cbn [app];
      (split;
       [ intro H;
         first [ discriminate H
               | injection H as ->;
                 first [ left; reflexivity
                       | right; eexists; split; reflexivity ] ]
       | intros [H | (o & H1 & H2)];
         [ first [ discriminate H | injection H as ->; reflexivity ]
         | first [ discriminate H1 | discriminate H2
                 | injection H2 as ->; reflexivity ] ] ]).
  - intros out e.
    destruct (find_spec interp "olefile") as [[o1 |] | e1];
      destruct (find_spec interp "oletools") as [[o2 |] | e2]; cbn [app];
      intro H; first [discriminate H | injection H as <- _; reflexivity].
Qed.

(** X18.  When [find_spec] answers for both packages, the check stops
    the program exactly when one is missing: it then prints two lines
    that name the missing packages in the order of
    [required_packages], separated by a comma and a space in the first
    line and by a space in the second, and exits with status 1. *)
Theorem dependency_check_reports_missing :
  (forall p, In p required_packages -> exists o, find_spec interp p = Ok o) ->
  dependency_check interp
  = match filter (is_missing interp) required_packages with
    | [] => ([], Continue)
    | missing =>
        ([EvPrint (String.append "Missing required packages: "
                     (join ", " missing));
          EvPrint (String.append "Please install them using: pip install "
                     (join " " missing))],
         Exit 1)
    end.
Proof.
  intro Hret. unfold dependency_check.
  rewrite (collect_missing_filter required_packages [] Hret). cbn [app].
  destruct (filter (is_missing interp) required_packages); reflexivity.
Qed.

Lemma run_imports_all_Ok (modules : list string) :
  (forall m, In m modules -> import_module interp m = Ok tt) ->
  run_imports interp modules = Continue.
Proof.
  induction modules as [| a rest IH]; intro H; [reflexivity |].
  cbn [run_imports]. rewrite (H a (or_introl eq_refl)).
  apply IH. intros m Hm. apply H. now right.
Qed.

(** X19.  The imports come first.  When [find_spec] agrees with
    [import]: if every import succeeds, the script does what [main]
    does, with the same trace and the same way of ending, and the check
    prints nothing; if an import raises, the script ends at the imports
    with that exception and nothing printed; in no case does it exit
    through the check.  And when [olefile] can not be imported the
    script ends at that [import], before the check, whatever
    [find_spec] would answer. *)
Theorem imports_come_before_the_check (env : Env) (path : string) :
  (imports_agree interp ->
   ((forall m, In m imported_modules -> import_module interp m = Ok tt) ->
    script interp env path
    = (trace (main env path),
       match result (main env path) with
       | Ok _ => Continue
       | Raise e => Crash e
       end))
   /\ (forall e, run_imports interp imported_modules = Crash e ->
                 script interp env path = ([], Crash e))
   /\ (forall status, snd (script interp env path) <> Exit status))
  /\ (forall e,
        import_module interp "argparse" = Ok tt ->
        import_module interp "subprocess" = Ok tt ->
        import_module interp "olefile" = Raise e ->
        script interp env path = ([], Crash e)).
Proof.
  split.
  - intros [Hole Htools].
    assert (Hgo : run_imports interp imported_modules = Continue ->
                  script interp env path
                  = (trace (main env path),
                     match result (main env path) with
                     | Ok _ => Continue
                     | Raise e => Crash e
                     end)).
    { intro Himp. pose proof (run_imports_Continue _ Himp) as Hall.
      assert (Hpass : dependency_check interp = ([], Continue)).
      { apply dependency_check_Continue. split.
        - apply Hole, Hall. unfold imported_modules. simpl. auto.
        - apply Htools, Hall. unfold imported_modules. simpl. auto 10. }
      unfold script. rewrite Himp, Hpass. reflexivity. }
    split; [| split].
    + intro Hall. apply Hgo. now apply run_imports_all_Ok.
    + intros e Himp. unfold script. now rewrite Himp.
    + intro status.
      destruct (run_imports interp imported_modules) as [| st | e] eqn:Himp.
      * rewrite (Hgo eq_refl). cbn [snd].
        destruct (result (main env path)); discriminate.
      * exfalso. exact (run_imports_no_exit _ _ Himp).
      * unfold script. rewrite Himp. discriminate.
  - intros e H1 H2 H3. unfold script, imported_modules. cbn [run_imports].
    now rewrite H1, H2, H3.
Qed.

End StartupFacts.

(** ** The further properties at sample inputs *)

Section FurtherSamples.

Import Samples MoreSamples Startup.

(** With nothing installed and no file every strategy runs, the nested
    scanner last. *)
Lemma no_macros_iff_all_negative_witness :
  In Nested (executed (trace (main env_bare "missing.doc"))).
Proof.
  apply (no_macros_iff_all_negative env_bare "missing.doc"). reflexivity.
Defined.

Lemma parser_positive_needs_close_witness :
  run_vba_parser env_close_fails "macro.doc"
  = ([EvVBAParser (FromPath "macro.doc");
      EvDetectMacros (FromPath "macro.doc");
      EvParserClose (FromPath "macro.doc")], Ok false).
Proof.
  apply (proj2 (parser_positive_needs_close env_close_fails "macro.doc")
           {| detect_macros := Ok true; close := Raise OSError |} OSError);
    reflexivity.
Defined.

(** An interrupt during the triage tool is swallowed. *)
Lemma bare_except_always_returns_witness :
  exists b, result (run_olevba_triage env_interrupted "macro.doc") = Ok b.
Proof.
  apply (bare_except_always_returns env_interrupted "macro.doc" Triage);
    discriminate.
Defined.

Lemma adapters_read_stdout_only_witness :
  run_oledump_check env_tools_report "invoice.doc"
  = run_oledump_check env_tools_warn "invoice.doc".
Proof.
  apply (adapters_read_stdout_only env_tools_report "invoice.doc"
           env_tools_warn
           {| returncode := 0; stdout := oledump_listing; stderr := "" |}
           {| returncode := 2; stdout := oledump_listing;
              stderr := "WARNING" |}); reflexivity.
Defined.

Lemma structural_check_asks_in_turn_witness :
  check_excel97_macros env_parser_breaks "odd.doc"
  = ([EvIsOleFile "odd.doc"], Ok false).
Proof.
  apply (structural_check_asks_in_turn env_parser_breaks "odd.doc").
  discriminate.
Defined.

Lemma nested_positive_is_sound_witness :
  exists z subfile,
    zipfile_ZipFile env_package "report.docm" = Ok z
    /\ In subfile (namelist z)
    /\ result (scan_subfile env_package z subfile) = Ok (Some true).
Proof.
  apply (nested_positive_is_sound env_package "report.docm"). reflexivity.
Defined.

Lemma archive_opened_and_closed_witness :
  zipfile_is_zipfile env_package "report.docm" = Ok true.
Proof.
  apply (archive_opened_and_closed env_package "report.docm").
  vm_compute. auto 10.
Defined.

Lemma unsigned_package_never_parsed_witness :
  existsb is_parser_open (trace (for_subfiles env_package package xml_parts))
  = false.
Proof.
  apply (unsigned_package_never_parsed env_package package xml_parts).
  repeat constructor; exists (entry_of xml_blob), (firstn 8 xml_blob);
    repeat split; reflexivity.
Defined.

Lemma loop_visits_every_entry_witness :
  In (EvZipOpen "docProps/app.xml")
    (trace (for_subfiles env_package package xml_parts)).
Proof.
  apply (loop_visits_every_entry env_package package xml_parts).
  - reflexivity.
  - right. left. reflexivity.
Defined.

Lemma nested_parser_left_open_witness :
  released (HParser (FromData "word/vbaProject.bin"))
    (trace (scan_subfile env_package_breaks package "word/vbaProject.bin"))
  = false.
Proof.
  apply (nested_parser_left_open env_package_breaks package
           "word/vbaProject.bin" (entry_of ole_blob) ole_blob
           (parser_of (Raise (OtherException "ProcessingError")))
           (OtherException "ProcessingError")); reflexivity.
Defined.

Lemma oledump_tokens_are_clean_witness :
  PyStr.is_empty "M" = false /\ has_space "M" = false.
Proof.
  apply (proj2 (oledump_tokens_are_clean
                  "  7: M    1562 'Macros/VBA/ThisDocument'")).
  vm_compute. auto.
Defined.

(** A finder that answers for [olefile] and fails on [oletools]. *)
Lemma dependency_check_passes_iff_witness :
  dependency_check interp_finder_fails_late = ([], Crash ValueError).
Proof.
  destruct (dependency_check_passes_iff interp_finder_fails_late)
    as (_ & Hcrash & _).
  apply Hcrash. right. exists (Some "olefile"). split; reflexivity.
Defined.

Lemma dependency_check_reports_missing_witness :
  dependency_check interp_stale
  = ([EvPrint "Missing required packages: oletools";
      EvPrint "Please install them using: pip install oletools"], Exit 1).
Proof.
  apply (dependency_check_reports_missing interp_stale).
  intros p [<- | [<- | []]]; eexists; reflexivity.
Defined.

(** With a complete installation the script is [main]; without
    [olefile] it ends at the import. *)
Lemma imports_come_before_the_check_witness :
  script interp_complete env_excel97 "book.xls"
  = (trace (main env_excel97 "book.xls"), Continue)
  /\ script interp_no_olefile env_bare "missing.doc"
     = ([], Crash (OtherException "ModuleNotFoundError")).
Proof.
  destruct (imports_come_before_the_check interp_complete env_excel97
              "book.xls") as [Hagree _].
  destruct (imports_come_before_the_check interp_no_olefile env_bare
              "missing.doc") as [_ Hfail].
  split.
  - destruct Hagree as [Hrun _].
    + split; intros _; eexists; reflexivity.
    + rewrite Hrun; [reflexivity |]. intros m _. reflexivity.
  - apply Hfail; reflexivity.
Defined.

End FurtherSamples.
